(** * Meteor-Madness: the impact model ([backend/impact_model.py])

    A shallow embedding of [get_severity_details] and
    [calculate_impact_effects], and the properties of the two functions.

    ** Numbers

    The program computes on Python floats and NumPy [float64] scalars; its
    numeric arguments are Python numbers, an int being the float of the same
    value.  They are embedded as the type [float] below: a real number, or one
    of the IEEE special values (the two infinities and NaN).

    The model keeps the range of a double and leaves out its precision.  The
    result of an operation on finite values is the exact real result brought
    into range by [fround]: a magnitude that rounds to infinity becomes an
    infinity (or, where Python checks for it, an OverflowError), a magnitude
    that rounds to zero becomes zero, and any other result is kept as the real
    number it is.  Rounding to 53 bits, the sign of zero and the difference
    between [math.pi] and the real number [PI] are not part of the model;
    every zero is [+0.0].  So an equality between a field and a formula is to
    be read up to rounding, and no property below rests on two nearby reals
    being different floats.

    Special values arise and propagate as in IEEE arithmetic: NumPy's
    division by zero (an infinity, or NaN for [0/0]), arithmetic and
    comparisons on infinities and NaN, and Python's switch to a complex result
    when a negative float is raised to a fractional power.

    ** Effects

    [calculate_impact_effects] reads the wall clock once, for the field
    [timestamp_utc]; the clock reading is an explicit argument.  The
    operations that NumPy carries out consult NumPy's floating-point error
    state ([numpy.seterr]) and, where that state asks for a warning, Python's
    warning filters.  [calculate_impact_effects_under] takes the two as its
    [environment], and [calculate_impact_effects] is the function in the
    default environment.  Exceptions are values of [outcome]. *)

From Stdlib Require Import Reals Lra Lia ZArith Bool String List.
Import ListNotations.

Open Scope string_scope.
Open Scope R_scope.

(** ** Floats: reals with the IEEE special values *)

Inductive float : Type :=
| Fin (x : R)           (* a finite value *)
| Inf (negative : bool) (* [inf] ([false]) and [-inf] ([true]) *)
| NaN.

(** Decidable tests on reals, as booleans. *)
Definition Rltb (x y : R) : bool := if Rlt_dec x y then true else false.
Definition Rleb (x y : R) : bool := if Rle_dec x y then true else false.
Definition Reqb (x y : R) : bool := if Req_dec_T x y then true else false.

(** [x < y], [x <= y], [x > y] on floats: every comparison with NaN is
    false. *)
Definition flt (a b : float) : bool :=
  match a, b with
  | Fin x, Fin y => Rltb x y
  | Fin _, Inf s => negb s
  | Inf s, Fin _ => s
  | Inf s, Inf t => s && negb t
  | _, _ => false
  end.

Definition fle (a b : float) : bool :=
  match a, b with
  | Fin x, Fin y => Rleb x y
  | Fin _, Inf s => negb s
  | Inf s, Fin _ => s
  | Inf s, Inf t => s || negb t
  | _, _ => false
  end.

Definition fgt (a b : float) : bool := flt b a.

(** ** The range of a double

    A real of magnitude [2^1024 - 2^970] or more rounds to an infinity (the
    bound is half way between the largest double and [2^1024]); a real of
    magnitude [2^-1075] or less rounds to zero (the bound is half the least
    positive double). *)

Definition float_max_Z : Z := Eval vm_compute in (2 ^ 1024 - 2 ^ 970)%Z.
Definition float_min_Z : Z := Eval vm_compute in (2 ^ 1075)%Z.

Definition float_max_bound : R := IZR float_max_Z.
Definition float_min_bound : R := / IZR float_min_Z.

Definition overflows (x : R) : bool := Rleb float_max_bound (Rabs x).
Definition underflows (x : R) : bool := Rleb (Rabs x) float_min_bound.

(** A real result brought into the range of a double. *)
Definition fround (x : R) : float :=
  if overflows x then Inf (Rltb x 0)
  else if underflows x then Fin 0
  else Fin x.

(** ** Arithmetic on floats *)

Definition fopp (a : float) : float :=
  match a with
  | Fin x => Fin (- x)
  | Inf s => Inf (negb s)
  | NaN => NaN
  end.

Definition fadd (a b : float) : float :=
  match a, b with
  | Fin x, Fin y => fround (x + y)
  | Fin _, Inf s => Inf s
  | Inf s, Fin _ => Inf s
  | Inf s, Inf t => if Bool.eqb s t then Inf s else NaN
  | _, _ => NaN
  end.

Definition fsub (a b : float) : float := fadd a (fopp b).

Definition fmul (a b : float) : float :=
  match a, b with
  | Fin x, Fin y => fround (x * y)
  | Fin x, Inf s => if Reqb x 0 then NaN else Inf (xorb (Rltb x 0) s)
  | Inf s, Fin y => if Reqb y 0 then NaN else Inf (xorb s (Rltb y 0))
  | Inf s, Inf t => Inf (xorb s t)
  | _, _ => NaN
  end.

(** IEEE division, which is NumPy's: a zero divisor gives an infinity, or
    NaN for [0/0].  Python's own float division agrees with it on every
    nonzero divisor (it raises on zero), and wherever the program divides
    two Python numbers the divisor is a nonzero literal. *)
Definition fdiv (a b : float) : float :=
  match a, b with
  | Fin x, Fin y =>
      if Reqb y 0 then (if Reqb x 0 then NaN else Inf (Rltb x 0))
      else fround (x / y)
  | Fin _, Inf _ => Fin 0
  | Inf s, Fin y => Inf (xorb s (Rltb y 0))
  | _, _ => NaN
  end.

(** [math.pi] and [numpy.radians], which multiplies by pi / 180. *)
Definition math_pi : float := Fin PI.

Definition np_radians (x : float) : float := fmul x (Fin (PI / 180)).

(** ** Numbers: floats and complex numbers

    Python's [**] leaves the floats when the base is negative and the
    exponent is not an integer, so a number of the program is a float or a
    complex number. *)

Inductive num : Type :=
| Float (x : float)
| Complex (re im : float).

Definition to_complex (a : num) : float * float :=
  match a with
  | Float x => (x, Fin 0)
  | Complex re im => (re, im)
  end.

(** Python's multiplication.  Two floats multiply as floats (an overflow
    gives an infinity, silently); otherwise Python promotes both operands to
    complex numbers and multiplies those. *)
Definition num_mul (a b : num) : num :=
  match a, b with
  | Float x, Float y => Float (fmul x y)
  | _, _ =>
      let '(ar, ai) := to_complex a in
      let '(br, bi) := to_complex b in
      Complex (fsub (fmul ar br) (fmul ai bi)) (fadd (fmul ar bi) (fmul ai br))
  end.

(** ** Exceptions *)

Inductive exn : Type :=
| ZeroDivisionError  (* [0.0 ** w] for a negative [w]; complex division by
                        zero *)
| OverflowError      (* [**] whose result is out of range *)
| FloatingPointError (* a NumPy operation, under an error state that raises *)
| RuntimeWarning     (* a NumPy warning, under a filter that turns warnings
                        into errors *)
| InvalidInput.      (* the error the specification names; no statement of
                        the program raises it *)

Inductive outcome (A : Type) : Type :=
| Returned (a : A)
| Raised (e : exn).

Arguments Returned {A} a.
Arguments Raised {A} e.

Definition bind {A B : Type} (m : outcome A) (k : A -> outcome B) : outcome B :=
  match m with
  | Returned a => k a
  | Raised e => Raised e
  end.

Notation "x <- m ;; k" := (bind m (fun x => k))
  (at level 61, m at next level, right associativity).

(** ** NumPy's floating-point error state

    A NumPy operation that divides a nonzero number by zero, overflows, or
    has no defined result reports it under the category [divide], [over] or
    [invalid]; the mode set for the category decides what follows: nothing,
    a warning, or a FloatingPointError.  The default mode of the three is
    [warn], and a warning is a RuntimeWarning, which Python's warning
    filters may turn into an exception ([warnings.simplefilter("error")]).
    (The fourth category, [under], is left at its default, under which an
    underflow goes unreported; the modes [call], [print] and [log] return
    the value like [ignore].) *)

Inductive fp_error : Type := Divide | Over | Invalid.

Inductive err_mode : Type := Ignore | Warn | Raise.

Record np_errstate : Type := mk_errstate {
  divide : err_mode;
  over : err_mode;
  invalid : err_mode
}.

Definition np_default_errstate : np_errstate :=
  {| divide := Warn; over := Warn; invalid := Warn |}.

(** What the function reads besides its arguments and the clock: NumPy's
    error state, and whether the warning filters in force raise a
    RuntimeWarning instead of showing it. *)
Record environment : Type := mk_environment {
  errstate : np_errstate;
  warnings_as_errors : bool
}.

Definition default_environment : environment :=
  {| errstate := np_default_errstate; warnings_as_errors := false |}.

Definition mode_of (st : np_errstate) (c : fp_error) : err_mode :=
  match c with
  | Divide => divide st
  | Over => over st
  | Invalid => invalid st
  end.

(** The outcome of a NumPy operation with value [v] that reports [flag]. *)
Definition np_result {A : Type} (env : environment)
    (flag : option fp_error) (v : A) : outcome A :=
  match flag with
  | Some c =>
      match mode_of (errstate env) c with
      | Raise => Raised FloatingPointError
      | Warn => if warnings_as_errors env then Raised RuntimeWarning
                else Returned v
      | Ignore => Returned v
      end
  | None => Returned v
  end.

(** What a multiplication and a division of floats report. *)
Definition fmul_flag (a b : float) : option fp_error :=
  match a, b with
  | Fin x, Fin y => if overflows (x * y) then Some Over else None
  | Fin x, Inf _ => if Reqb x 0 then Some Invalid else None
  | Inf _, Fin y => if Reqb y 0 then Some Invalid else None
  | _, _ => None
  end.

Definition fdiv_flag (a b : float) : option fp_error :=
  match a, b with
  | Fin x, Fin y =>
      if Reqb y 0 then (if Reqb x 0 then Some Invalid else Some Divide)
      else if overflows (x / y) then Some Over else None
  | Inf _, Inf _ => Some Invalid
  | _, _ => None
  end.

(** [numpy.sin]: the sine of an infinity is NaN and is reported as
    invalid. *)
Definition np_sin_value (x : float) : float :=
  match x with
  | Fin r => fround (sin r)
  | _ => NaN
  end.

Definition np_sin_flag (x : float) : option fp_error :=
  match x with
  | Inf _ => Some Invalid
  | _ => None
  end.

Definition np_sin (env : environment) (x : float) : outcome float :=
  np_result env (np_sin_flag x) (np_sin_value x).

(** [k * a] for a Python int or float [k] and the NumPy scalar or Python
    complex [a]: NumPy multiplies a float, Python a complex number. *)
Definition np_mul (env : environment) (k : float) (a : num) : outcome num :=
  match a with
  | Float x => np_result env (fmul_flag k x) (Float (fmul k x))
  | Complex _ _ => Returned (num_mul (Float k) a)
  end.

Definition fis_zero (s : float) : bool :=
  match s with
  | Fin y => Reqb y 0
  | _ => false
  end.

(** True division of a number by a real scalar [s], the two forms the
    program uses.  A float numerator is divided by NumPy ([s] is a
    [float64], or the numerator is and [s] is a nonzero literal): IEEE
    division in the environment.  A complex numerator is a Python
    [complex], and Python's own complex division runs with [s] promoted to
    [s + 0j]: it raises on a zero divisor. *)
Definition num_truediv (env : environment) (a : num) (s : float)
    : outcome num :=
  match a with
  | Float x => np_result env (fdiv_flag x s) (Float (fdiv x s))
  | Complex re im =>
      match s with
      | NaN => Returned (Complex NaN NaN)
      | _ =>
          if fis_zero s then Raised ZeroDivisionError
          else
            let ratio := fdiv (Fin 0) s in
            let denom := fadd s (fmul (Fin 0) ratio) in
            Returned (Complex (fdiv (fadd re (fmul im ratio)) denom)
                              (fdiv (fsub im (fmul re ratio)) denom))
      end
  end.

(** ** Python's power operator

    The result [p] of C's [pow] as Python hands it on: OverflowError when it
    is out of range, zero when it underflows. *)
Definition pow_result (p : R) : outcome float :=
  if overflows p then Raised OverflowError
  else Returned (if underflows p then Fin 0 else Fin p).

(** [v ** n] for a float [v] and an int [n]: the result is a float. *)
Definition float_pow_int (iv : float) (n : Z) : outcome float :=
  if (n =? 0)%Z then Returned (Fin 1)
  else
    match iv with
    | NaN => Returned NaN
    | Inf s =>
        if (0 <? n)%Z then Returned (if Z.odd n then Inf s else Inf false)
        else Returned (Fin 0)
    | Fin x =>
        if Reqb x 0 then
          if (n <? 0)%Z then Raised ZeroDivisionError else Returned (Fin 0)
        else if Rltb x 0 then
          pow_result (if Z.odd n then - powerRZ (- x) n else powerRZ (- x) n)
        else pow_result (powerRZ x n)
    end.

Definition is_integer (w : R) : bool := Reqb w (IZR (Int_part w)).
Definition is_odd_integer (w : R) : bool := is_integer w && Z.odd (Int_part w).

(** [v ** w] for floats [v] and [w], [w] finite.  A negative finite base
    with a fractional exponent gives the complex number of modulus
    [(-v) ** w] and argument [pi * w]. *)
Definition float_pow (iv : float) (iw : R) : outcome num :=
  if Reqb iw 0 then Returned (Float (Fin 1))
  else
    match iv with
    | NaN => Returned (Float NaN)
    | Inf s =>
        if Rltb 0 iw then
          Returned (Float (if is_odd_integer iw then Inf s else Inf false))
        else Returned (Float (Fin 0))
    | Fin x =>
        if Reqb x 0 then
          if Rltb iw 0 then Raised ZeroDivisionError
          else Returned (Float (Fin 0))
        else if Rltb x 0 then
          if is_integer iw then
            p <- pow_result (if is_odd_integer iw
                             then - Rpower (- x) iw
                             else Rpower (- x) iw) ;;
            Returned (Float p)
          else
            len <- pow_result (Rpower (- x) iw) ;;
            Returned (Complex (fmul len (Fin (cos (PI * iw))))
                              (fmul len (Fin (sin (PI * iw)))))
        else
          p <- pow_result (Rpower x iw) ;;
          Returned (Float p)
    end.

(** ** Values and reports

    The value of a report field: a number, a Python int, a string, a bool, a
    list or a dict.  A dict is the list of its items in insertion order. *)

#[local] Set Warnings "-register-all".

Inductive value : Type :=
| VNum (n : num)
| VInt (z : Z)
| VStr (s : string)
| VBool (b : bool)
| VList (l : list value)
| VDict (d : list (string * value)).

Definition dict : Type := list (string * value).

Fixpoint dict_get (k : string) (d : dict) : option value :=
  match d with
  | [] => None
  | (k', v) :: d' => if String.eqb k k' then Some v else dict_get k d'
  end.

Definition dict_keys (d : dict) : list string := map fst d.


(** ** Constants *)

Definition ASTEROID_DENSITY_KGM3 : float := Fin 3500.
Definition JOULES_PER_MEGATON_TNT : float := Fin 4.184e15.

(** ** Severity classification *)

Record severity : Type := mk_severity {
  band : string;
  color : string;
  actions : list string
}.

Definition get_severity_details (energy_mt : float) : severity :=
  if flt energy_mt (Fin 0.1) then
    {| band := "Local Event";
       color := "green";
       actions := ["Monitor official news.";
                   "No immediate public action required."] |}
  else if flt energy_mt (Fin 10) then
    {| band := "City Level Event";
       color := "yellow";
       actions := ["Shelter away from windows.";
                   "Expect shockwave.";
                   "Follow local authority instructions."] |}
  else if flt energy_mt (Fin 1000) then
    {| band := "Regional Threat";
       color := "red";
       actions := ["Evacuate within precaution radius immediately.";
                   "Seek high ground if in coastal area."] |}
  else
    {| band := "Global Event";
       color := "black";
       actions := ["This is a globally significant event.";
                   "Follow national emergency broadcast instructions."] |}.

(** ** The impact report

    [env] is the environment in which the function runs and
    [utcnow_isoformat] is [datetime.datetime.utcnow().isoformat()], the one
    reading of the clock. *)

Definition calculate_impact_effects_under
    (env : environment) (utcnow_isoformat : string)
    (diameter_m impact_speed_m_s impact_angle_deg lat lon : float)
    (impact_body : string) (impact_in_water : bool) : outcome dict :=
  (* 1. initial check *)
  if negb (String.eqb impact_body "Earth") then
    Returned [("impact_body", VStr impact_body);
              ("notes", VStr "No direct effect on Earth expected.")]
  else
    (* 2. energy *)
    let radius_m := fdiv diameter_m (Fin 2) in
    radius_cubed <- float_pow_int radius_m 3 ;;
    let volume_m3 := fmul (fmul (Fin (4 / 3)) math_pi) radius_cubed in
    let mass_kg := fmul ASTEROID_DENSITY_KGM3 volume_m3 in
    speed_squared <- float_pow_int impact_speed_m_s 2 ;;
    let kinetic_energy_J := fmul (fmul (Fin 0.5) mass_kg) speed_squared in
    let impact_energy_Mt := fdiv kinetic_energy_J JOULES_PER_MEGATON_TNT in
    (* 3. severity *)
    let severity := get_severity_details impact_energy_Mt in
    (* 4. crater and zone *)
    energy_root <- float_pow impact_energy_Mt (1 / 3) ;;
    let base_crater_diameter_m := num_mul (Float (Fin 90)) energy_root in
    let impact_angle_rad := np_radians impact_angle_deg in
    sine <- np_sin env impact_angle_rad ;;
    crater_long_axis_m <- num_truediv env base_crater_diameter_m sine ;;
    let crater_short_axis_m := base_crater_diameter_m in
    tripled <- np_mul env (Fin 3) crater_long_axis_m ;;
    precaution_radius_km <- num_truediv env tripled (Fin 1000) ;;
    (* 5. shockwave *)
    let is_airburst_risk :=
      fle (Fin 0.1) impact_energy_Mt && flt impact_energy_Mt (Fin 1000) in
    shockwave_damage_radius_km <-
      (if is_airburst_risk then
         energy_root' <- float_pow impact_energy_Mt (1 / 3) ;;
         Returned (VNum (num_mul (Float (Fin 30)) energy_root'))
       else Returned (VInt 0)) ;;
    (* 6. tsunami *)
    let tsunami_risk := impact_in_water && fgt impact_energy_Mt (Fin 1) in
    (* 7. the report *)
    Returned
      [("impact_body", VStr "Earth");
       ("impact_coords",
        VDict [("lat", VNum (Float lat)); ("lon", VNum (Float lon))]);
       ("impact_in_water", VBool impact_in_water);
       ("impact_energy_J", VNum (Float kinetic_energy_J));
       ("impact_energy_Mt", VNum (Float impact_energy_Mt));
       ("crater_details",
        VDict [("shape",
                VStr (if flt impact_angle_deg (Fin 80)
                      then "oval" else "circular"));
               ("long_axis_m_est", VNum crater_long_axis_m);
               ("short_axis_m_est", VNum crater_short_axis_m)]);
       ("precaution_radius_km_est", VNum precaution_radius_km);
       ("severity_band", VStr (band severity));
       ("severity_color", VStr (color severity));
       ("shockwave_effects",
        VDict [("is_airburst_risk", VBool is_airburst_risk);
               ("damage_radius_km_est", shockwave_damage_radius_km);
               ("description",
                VStr (if is_airburst_risk
                      then "Widespread window breakage expected. Risk of injury from flying glass."
                      else "Negligible atmospheric shockwave effects."))]);
       ("tsunami_risk", VBool tsunami_risk);
       ("recommended_actions", VList (map VStr (actions severity)));
       ("confidence_pct", VInt 75);
       ("notes",
        VStr "Prototype estimate based on simplified models. Not for official use.");
       ("timestamp_utc", VStr (utcnow_isoformat ++ "Z"))].

(** The function as it runs in the default environment. *)
Definition calculate_impact_effects
    (utcnow_isoformat : string)
    (diameter_m impact_speed_m_s impact_angle_deg lat lon : float)
    (impact_body : string) (impact_in_water : bool) : outcome dict :=
  calculate_impact_effects_under default_environment utcnow_isoformat
    diameter_m impact_speed_m_s impact_angle_deg lat lon
    impact_body impact_in_water.

(** The test block ([if __name__ == "__main__"]): the call it makes.  The
    keyword arguments of [test_inputs] leave [impact_body] out, so the
    default "Earth" applies.  Printing the result is not modelled. *)
Definition main_results (utcnow_isoformat : string) : outcome dict :=
  calculate_impact_effects utcnow_isoformat
    (Fin 20) (Fin 20000) (Fin 45) (Fin 55.15) (Fin 61.40) "Earth" false.

(** ** Vocabulary of the properties *)

(** The field reached by a path of keys, as in [report["a"]["b"]]. *)
Fixpoint dict_path (ks : list string) (v : value) : option value :=
  match ks with
  | [] => Some v
  | k :: ks' =>
      match v with
      | VDict d =>
          match dict_get k d with
          | Some v' => dict_path ks' v'
          | None => None
          end
      | _ => None
      end
  end.

Definition field (ks : list string) (report : dict) : option value :=
  dict_path ks (VDict report).

(** A finite float as a field value. *)
Definition VFin (x : R) : value := VNum (Float (Fin x)).

(** The four severity profiles. *)

Definition local_event : severity :=
  mk_severity "Local Event" "green"
    ["Monitor official news."; "No immediate public action required."].

Definition city_level_event : severity :=
  mk_severity "City Level Event" "yellow"
    ["Shelter away from windows."; "Expect shockwave.";
     "Follow local authority instructions."].

Definition regional_threat : severity :=
  mk_severity "Regional Threat" "red"
    ["Evacuate within precaution radius immediately.";
     "Seek high ground if in coastal area."].

Definition global_event : severity :=
  mk_severity "Global Event" "black"
    ["This is a globally significant event.";
     "Follow national emergency broadcast instructions."].

(** A request is valid when the diameter and the speed are positive and the
    angle lies in (0, 90] (the constraints of the data model). *)
Definition valid_request (diameter_m impact_speed_m_s impact_angle_deg : R) : Prop :=
  0 < diameter_m /\ 0 < impact_speed_m_s /\ 0 < impact_angle_deg <= 90.

(** Sizes far from the ends of the range of a double: none of the products
    of step 2 overflows or underflows on them. *)
Definition ordinary_sizes (diameter_m impact_speed_m_s : R) : Prop :=
  1e-30 <= diameter_m <= 1e30 /\ 1e-30 <= impact_speed_m_s <= 1e30.

(** A valid request on ordinary sizes whose angle is not minute. *)
Definition ordinary_request (diameter_m impact_speed_m_s impact_angle_deg : R) : Prop :=
  ordinary_sizes diameter_m impact_speed_m_s /\ 1e-30 <= impact_angle_deg <= 90.

(** The kinetic energy in joules and in megatons of TNT, as the formulas of
    the specification write them. *)
Definition energy_J (diameter_m impact_speed_m_s : R) : R :=
  0.5 * (3500 * (4 / 3) * PI * (diameter_m / 2) ^ 3) * impact_speed_m_s ^ 2.

Definition energy_Mt (diameter_m impact_speed_m_s : R) : R :=
  energy_J diameter_m impact_speed_m_s / 4.184e15.

(** The crater of step 4 on reals: the short axis from the energy, and the
    long axis from the short axis and the angle in degrees. *)
Definition crater_short (diameter_m impact_speed_m_s : R) : R :=
  90 * Rpower (energy_Mt diameter_m impact_speed_m_s) (1 / 3).

Definition crater_long (diameter_m impact_speed_m_s impact_angle_deg : R) : R :=
  crater_short diameter_m impact_speed_m_s / sin (impact_angle_deg * (PI / 180)).

(** A real result whose underflow is taken into account: what [fround]
    makes of it when it does not overflow. *)
Definition flush (x : R) : R := if underflows x then 0 else x.

(** The energy of a call in which nothing overflows, each operation of
    step 2 followed by its underflow. *)
Definition flushed_energy_J (d v : R) : R :=
  flush (flush (0.5 * flush (3500 * flush (4 / 3 * PI
                                           * flush (flush (d / 2) ^ 3))))
         * flush (v ^ 2)).

Definition flushed_energy_Mt (d v : R) : R :=
  flush (flushed_energy_J d v / 4.184e15).

(** A float that is not negative: a real from 0 on, [inf], or NaN. *)
Definition fnonneg (a : float) : Prop :=
  match a with
  | Fin x => 0 <= x
  | Inf s => s = false
  | NaN => True
  end.

(** A real that an operation on floats returns: zero, or a magnitude
    strictly between the two bounds. *)
Definition is_double (x : R) : Prop :=
  x = 0 \/ float_min_bound < Rabs x < float_max_bound.

(** The cube root and the short axis that the program computes from an
    energy that is not negative. *)
Definition root_of (E : float) : float :=
  match E with
  | Fin e => if Reqb e 0 then Fin 0 else Fin (Rpower e (1 / 3))
  | Inf _ => Inf false
  | NaN => NaN
  end.

Definition short_of (E : float) : float := fmul (Fin 90) (root_of E).

(** [a] is at most [b], where [inf] and NaN stand above every real: the
    order in which the quantities of step 2 grow with the sizes. *)
Definition fle_top (a b : float) : Prop :=
  match b with
  | Fin y => match a with Fin x => x <= y | _ => False end
  | _ => True
  end.

(** The kinetic energy as the program computes it from the two powers. *)
Definition kinetic_energy_of (radius_cubed speed_squared : float) : float :=
  fmul (fmul (Fin 0.5)
          (fmul ASTEROID_DENSITY_KGM3
             (fmul (fmul (Fin (4 / 3)) math_pi) radius_cubed)))
       speed_squared.

(** The dict of step 7, from the quantities of steps 2 to 6: what a call for
    Earth returns when none of its operations raises
    ([calculate_earth_inversion]). *)
Definition earth_report
    (utcnow_isoformat : string) (lat lon : float) (impact_in_water : bool)
    (impact_angle_deg kinetic_energy_J impact_energy_Mt : float)
    (crater_long_axis_m crater_short_axis_m precaution_radius_km : num)
    (shockwave_damage_radius_km : value) : dict :=
  let severity := get_severity_details impact_energy_Mt in
  let is_airburst_risk :=
    fle (Fin 0.1) impact_energy_Mt && flt impact_energy_Mt (Fin 1000) in
  [("impact_body", VStr "Earth");
   ("impact_coords",
    VDict [("lat", VNum (Float lat)); ("lon", VNum (Float lon))]);
   ("impact_in_water", VBool impact_in_water);
   ("impact_energy_J", VNum (Float kinetic_energy_J));
   ("impact_energy_Mt", VNum (Float impact_energy_Mt));
   ("crater_details",
    VDict [("shape",
            VStr (if flt impact_angle_deg (Fin 80) then "oval" else "circular"));
           ("long_axis_m_est", VNum crater_long_axis_m);
           ("short_axis_m_est", VNum crater_short_axis_m)]);
   ("precaution_radius_km_est", VNum precaution_radius_km);
   ("severity_band", VStr (band severity));
   ("severity_color", VStr (color severity));
   ("shockwave_effects",
    VDict [("is_airburst_risk", VBool is_airburst_risk);
           ("damage_radius_km_est", shockwave_damage_radius_km);
           ("description",
            VStr (if is_airburst_risk
                  then "Widespread window breakage expected. Risk of injury from flying glass."
                  else "Negligible atmospheric shockwave effects."))]);
   ("tsunami_risk", VBool (impact_in_water && fgt impact_energy_Mt (Fin 1)));
   ("recommended_actions", VList (map VStr (actions severity)));
   ("confidence_pct", VInt 75);
   ("notes",
    VStr "Prototype estimate based on simplified models. Not for official use.");
   ("timestamp_utc", VStr (utcnow_isoformat ++ "Z"))].

(** What the report holds on ordinary sizes, field by field; the angle is
    any real and the division by its sine is left as the float division it
    is. *)
Record earth_fields (d v a : R) (w : bool) (r : dict) : Prop := {
  ef_energy_J :
    field ["impact_energy_J"] r = Some (VFin (energy_J d v));
  ef_energy_Mt :
    field ["impact_energy_Mt"] r = Some (VFin (energy_Mt d v));
  ef_short :
    field ["crater_details"; "short_axis_m_est"] r
      = Some (VFin (crater_short d v));
  ef_long :
    field ["crater_details"; "long_axis_m_est"] r
      = Some (VNum (Float (fdiv (Fin (crater_short d v))
                                (np_sin_value (np_radians (Fin a))))));
  ef_precaution :
    field ["precaution_radius_km_est"] r
      = Some (VNum (Float
           (fdiv (fmul (Fin 3)
                    (fdiv (Fin (crater_short d v))
                          (np_sin_value (np_radians (Fin a)))))
                 (Fin 1000))));
  ef_shape :
    field ["crater_details"; "shape"] r
      = Some (VStr (if Rltb a 80 then "oval" else "circular"));
  ef_band :
    field ["severity_band"] r
      = Some (VStr (band (get_severity_details (Fin (energy_Mt d v)))));
  ef_color :
    field ["severity_color"] r
      = Some (VStr (color (get_severity_details (Fin (energy_Mt d v)))));
  ef_actions :
    field ["recommended_actions"] r
      = Some (VList (map VStr
                (actions (get_severity_details (Fin (energy_Mt d v))))));
  ef_airburst :
    field ["shockwave_effects"; "is_airburst_risk"] r
      = Some (VBool (Rleb 0.1 (energy_Mt d v) && Rltb (energy_Mt d v) 1000));
  ef_radius :
    field ["shockwave_effects"; "damage_radius_km_est"] r
      = Some (if Rleb 0.1 (energy_Mt d v) && Rltb (energy_Mt d v) 1000
              then VFin (30 * Rpower (energy_Mt d v) (1 / 3))
              else VInt 0);
  ef_tsunami :
    field ["tsunami_risk"] r = Some (VBool (w && Rltb 1 (energy_Mt d v)))
}.

(** The rank of a severity band: Local < City Level < Regional < Global. *)
Definition band_index (b : string) : nat :=
  if String.eqb b "Local Event" then 0
  else if String.eqb b "City Level Event" then 1
  else if String.eqb b "Regional Threat" then 2
  else 3.




Definition warnings_raise : environment :=
  {| errstate := np_default_errstate; warnings_as_errors := true |}.

(** * Properties *)

(** ** Comparisons on reals *)

Lemma Rltb_spec x y : Rltb x y = true <-> x < y.
Proof. unfold Rltb. destruct (Rlt_dec x y); split; intros; auto; discriminate. Qed.

Lemma Rleb_spec x y : Rleb x y = true <-> x <= y.
Proof. unfold Rleb. destruct (Rle_dec x y); split; intros; auto; discriminate. Qed.

Lemma Rltb_true x y : x < y -> Rltb x y = true.
Proof. apply Rltb_spec. Qed.

Lemma Rltb_false x y : y <= x -> Rltb x y = false.
Proof. intros H. unfold Rltb. destruct (Rlt_dec x y); [lra | reflexivity]. Qed.

Lemma Rleb_true x y : x <= y -> Rleb x y = true.
Proof. apply Rleb_spec. Qed.

Lemma Rleb_false x y : y < x -> Rleb x y = false.
Proof. intros H. unfold Rleb. destruct (Rle_dec x y); [lra | reflexivity]. Qed.

Lemma Reqb_true x y : x = y -> Reqb x y = true.
Proof. intros H. unfold Reqb. destruct (Req_dec_T x y); [reflexivity | contradiction]. Qed.

Lemma Reqb_false x y : x <> y -> Reqb x y = false.
Proof. intros H. unfold Reqb. destruct (Req_dec_T x y); [contradiction | reflexivity]. Qed.

(** ** Severity *)

Lemma severity_local e : e < 0.1 -> get_severity_details (Fin e) = local_event.
Proof.
  intros H. unfold get_severity_details; simpl.
  rewrite Rltb_true by lra. reflexivity.
Qed.

Lemma severity_city e :
  0.1 <= e < 10 -> get_severity_details (Fin e) = city_level_event.
Proof.
  intros H. unfold get_severity_details; simpl.
  rewrite Rltb_false by lra. rewrite Rltb_true by lra. reflexivity.
Qed.

Lemma severity_regional e :
  10 <= e < 1000 -> get_severity_details (Fin e) = regional_threat.
Proof.
  intros H. unfold get_severity_details; simpl.
  rewrite !Rltb_false by lra. rewrite Rltb_true by lra. reflexivity.
Qed.

Lemma severity_global e :
  1000 <= e -> get_severity_details (Fin e) = global_event.
Proof.
  intros H. unfold get_severity_details; simpl.
  rewrite !Rltb_false by lra. reflexivity.
Qed.

(** C4. The severity classification is a total function of the energy in
    megatons which splits [0, oo) into four half-open intervals: below 0.1 it
    is ("Local Event", "green"), from 0.1 up to but excluding 10 it is
    ("City Level Event", "yellow"), from 10 up to but excluding 1000 it is
    ("Regional Threat", "red"), and from 1000 on it is ("Global Event",
    "black").  The boundary values 0.1, 10 and 1000 belong to the higher
    band, each band comes with its literal list of actions, and no energy is
    classified outside these four profiles. *)
Theorem severity_bands_partition (e : R) :
  (e < 0.1 -> get_severity_details (Fin e) = local_event) /\
  (0.1 <= e < 10 -> get_severity_details (Fin e) = city_level_event) /\
  (10 <= e < 1000 -> get_severity_details (Fin e) = regional_threat) /\
  (1000 <= e -> get_severity_details (Fin e) = global_event) /\
  (forall x : float,
     In (get_severity_details x)
        [local_event; city_level_event; regional_threat; global_event]).
Proof.
  repeat split.
  - apply severity_local.
  - apply severity_city.
  - apply severity_regional.
  - apply severity_global.
  - intros x. unfold get_severity_details.
    destruct (flt x (Fin 0.1)); [simpl; auto |].
    destruct (flt x (Fin 10)); [simpl; auto |].
    destruct (flt x (Fin 1000)); simpl; auto.
Qed.

(** Zero and the three boundary energies, classified. *)
Lemma severity_bands_boundaries :
  get_severity_details (Fin 0) = local_event /\
  get_severity_details (Fin 0.1) = city_level_event /\
  get_severity_details (Fin 10) = regional_threat /\
  get_severity_details (Fin 1000) = global_event.
Proof.
  split; [| split; [| split]].
  - apply (proj1 (severity_bands_partition 0)); lra.
  - apply (proj1 (proj2 (severity_bands_partition 0.1))); lra.
  - apply (proj1 (proj2 (proj2 (severity_bands_partition 10)))); lra.
  - apply (proj1 (proj2 (proj2 (proj2 (severity_bands_partition 1000))))); lra.
Defined.

(** A larger energy is never in a lower band. *)
Lemma band_index_monotone e1 e2 :
  e1 <= e2 ->
  (band_index (band (get_severity_details (Fin e1)))
   <= band_index (band (get_severity_details (Fin e2))))%nat.
Proof.
  intros Hle. unfold get_severity_details. cbn [flt]. unfold Rltb.
  destruct (Rlt_dec e1 0.1), (Rlt_dec e1 10), (Rlt_dec e1 1000),
    (Rlt_dec e2 0.1), (Rlt_dec e2 10), (Rlt_dec e2 1000);
    try lra; cbn; lia.
Qed.


(** ** The range of a double *)

Lemma float_max_lower : 1e300 < float_max_bound.
Proof. unfold float_max_bound, float_max_Z. lra. Qed.

Lemma float_min_upper : float_min_bound < 1e-300.
Proof. unfold float_min_bound, float_min_Z. lra. Qed.

Lemma float_min_pos : 0 < float_min_bound.
Proof. unfold float_min_bound, float_min_Z. lra. Qed.

Lemma overflows_false x : Rabs x <= 1e300 -> overflows x = false.
Proof.
  intros H. unfold overflows. apply Rleb_false.
  pose proof float_max_lower. lra.
Qed.

Lemma underflows_false x : 1e-300 <= Rabs x -> underflows x = false.
Proof.
  intros H. unfold underflows. apply Rleb_false.
  pose proof float_min_upper. lra.
Qed.

Lemma underflows_zero : underflows 0 = true.
Proof.
  unfold underflows. apply Rleb_true. rewrite Rabs_R0.
  pose proof float_min_pos. lra.
Qed.

Lemma overflows_zero : overflows 0 = false.
Proof. apply overflows_false. rewrite Rabs_R0. lra. Qed.

Lemma overflows_underflows x : overflows x = true -> underflows x = false.
Proof.
  unfold overflows, underflows. intros H. apply Rleb_spec in H.
  apply Rleb_false. pose proof float_max_lower. pose proof float_min_upper. lra.
Qed.

Lemma fround_zero : fround 0 = Fin 0.
Proof. unfold fround. rewrite overflows_zero, underflows_zero. reflexivity. Qed.

Lemma fround_safe x : 1e-300 <= Rabs x <= 1e300 -> fround x = Fin x.
Proof.
  intros H. unfold fround.
  rewrite overflows_false by lra. rewrite underflows_false by lra. reflexivity.
Qed.

Lemma fround_pos x : 1e-300 <= x <= 1e300 -> fround x = Fin x.
Proof. intros H. apply fround_safe. rewrite Rabs_pos_eq; lra. Qed.

Lemma fround_flush x : overflows x = false -> fround x = Fin (flush x).
Proof. intros H. unfold fround, flush. rewrite H. destruct (underflows x); reflexivity. Qed.

Lemma fround_Fin_inv x z :
  fround x = Fin z -> overflows x = false /\ z = flush x.
Proof.
  unfold fround, flush. destruct (overflows x); [discriminate |].
  destruct (underflows x); intros H; injection H as <-; auto.
Qed.

Lemma fround_not_NaN x : fround x <> NaN.
Proof.
  unfold fround. destruct (overflows x); [discriminate |].
  destruct (underflows x); discriminate.
Qed.

Lemma fround_Inf_inv x s :
  fround x = Inf s -> overflows x = true /\ s = Rltb x 0.
Proof.
  unfold fround. destruct (overflows x).
  - intros H; injection H as <-; auto.
  - destruct (underflows x); discriminate.
Qed.

Lemma flush_zero : flush 0 = 0.
Proof. unfold flush. rewrite underflows_zero. reflexivity. Qed.

Lemma flush_cases x : flush x = x \/ flush x = 0.
Proof. unfold flush. destruct (underflows x); auto. Qed.

Lemma flush_nonzero x : flush x <> 0 -> flush x = x.
Proof. destruct (flush_cases x); tauto. Qed.

Lemma flush_safe x : 1e-300 <= Rabs x -> flush x = x.
Proof. intros H. unfold flush. rewrite underflows_false by lra. reflexivity. Qed.

Lemma flush_nonneg x : 0 <= x -> 0 <= flush x.
Proof. intros H. destruct (flush_cases x) as [-> | ->]; lra. Qed.

Lemma flush_le x : 0 <= x -> flush x <= x.
Proof. intros H. destruct (flush_cases x) as [-> | ->]; lra. Qed.

Lemma flush_pos_inv x : 0 < flush x -> flush x = x /\ float_min_bound < x.
Proof.
  unfold flush, underflows, Rleb.
  destruct (Rle_dec (Rabs x) float_min_bound) as [H | H]; [lra |].
  intros Hx. split; [reflexivity |].
  rewrite Rabs_pos_eq in H; lra.
Qed.

(** Underflow keeps the order. *)
Lemma flush_monotone x y : x <= y -> flush x <= flush y.
Proof.
  intros Hle. unfold flush, underflows, Rleb.
  pose proof float_min_pos as Hm.
  destruct (Rle_dec (Rabs x) float_min_bound) as [Hx | Hx],
           (Rle_dec (Rabs y) float_min_bound) as [Hy | Hy];
    try lra;
    revert Hx Hy; unfold Rabs;
    destruct (Rcase_abs x), (Rcase_abs y); intros; lra.
Qed.

(** The value of a float operation on finite operands when the result is
    finite. *)
Lemma fmul_Fin_inv a b z :
  fmul a b = Fin z ->
  exists x y, a = Fin x /\ b = Fin y /\ overflows (x * y) = false
              /\ z = flush (x * y).
Proof.
  destruct a as [x | s |], b as [y | t |]; cbn; try discriminate.
  - intros H. apply fround_Fin_inv in H. exists x, y. tauto.
  - destruct (Reqb x 0); discriminate.
  - destruct (Reqb y 0); discriminate.
Qed.

Lemma fdiv_Fin_inv a c z :
  c <> 0 ->
  fdiv a (Fin c) = Fin z ->
  exists x, a = Fin x /\ overflows (x / c) = false /\ z = flush (x / c).
Proof.
  intros Hc. destruct a as [x | s |]; cbn; try discriminate.
  rewrite (Reqb_false c 0) by assumption.
  intros H. apply fround_Fin_inv in H. exists x. tauto.
Qed.

Lemma fmul_safe x y :
  1e-300 <= Rabs (x * y) <= 1e300 -> fmul (Fin x) (Fin y) = Fin (x * y).
Proof. intros H. cbn. apply fround_safe. exact H. Qed.

Lemma fmul_pos x y :
  1e-300 <= x * y <= 1e300 -> fmul (Fin x) (Fin y) = Fin (x * y).
Proof. intros H. cbn. apply fround_pos. exact H. Qed.

Lemma fdiv_pos x y :
  y <> 0 -> 1e-300 <= x / y <= 1e300 -> fdiv (Fin x) (Fin y) = Fin (x / y).
Proof.
  intros Hy H. cbn. rewrite Reqb_false by assumption. apply fround_pos. exact H.
Qed.

Lemma fmul_zero_r x : fmul (Fin x) (Fin 0) = Fin 0.
Proof. cbn. rewrite Rmult_0_r. apply fround_zero. Qed.

Lemma fdiv_zero_l y : y <> 0 -> fdiv (Fin 0) (Fin y) = Fin 0.
Proof.
  intros Hy. cbn. rewrite Reqb_false by assumption.
  replace (0 / y) with 0 by (unfold Rdiv; ring). apply fround_zero.
Qed.


(** ** The environment *)

Lemma Returned_inj {A} (x y : A) : Returned x = Returned y -> x = y.
Proof. intros H. now injection H. Qed.

Lemma np_result_default {A} flag (v : A) :
  np_result default_environment flag v = Returned v.
Proof. destruct flag as [[] |]; reflexivity. Qed.

Lemma np_result_unflagged {A} env (v : A) : np_result env None v = Returned v.
Proof. reflexivity. Qed.

Lemma np_result_inv {A} env flag (v r : A) :
  np_result env flag v = Returned r -> r = v.
Proof.
  unfold np_result. destruct flag as [c |].
  - destruct (mode_of (errstate env) c);
      [| destruct (warnings_as_errors env) |]; intros H;
      try discriminate; injection H; auto.
  - intros H; injection H; auto.
Qed.

(** ** The power operator *)

Lemma pow_result_flush p :
  overflows p = false -> pow_result p = Returned (Fin (flush p)).
Proof.
  intros H. unfold pow_result, flush. rewrite H.
  destruct (underflows p); reflexivity.
Qed.

Lemma pow_result_overflow p :
  overflows p = true -> pow_result p = Raised OverflowError.
Proof. intros H. unfold pow_result. now rewrite H. Qed.

Lemma pow_result_inv p y :
  pow_result p = Returned y -> overflows p = false /\ y = Fin (flush p).
Proof.
  unfold pow_result, flush. destruct (overflows p); [discriminate |].
  intros H. injection H as <-. split; [reflexivity |].
  destruct (underflows p); reflexivity.
Qed.

Lemma pow_result_outcome p :
  (exists y, pow_result p = Returned (Fin y)) \/
  pow_result p = Raised OverflowError.
Proof.
  unfold pow_result. destruct (overflows p); [right; reflexivity |].
  left. destruct (underflows p); eexists; reflexivity.
Qed.

Lemma pow_result_safe p :
  1e-300 <= Rabs p <= 1e300 -> pow_result p = Returned (Fin p).
Proof.
  intros H. rewrite pow_result_flush by (apply overflows_false; lra).
  rewrite flush_safe by lra. reflexivity.
Qed.

(** The two integral powers of the program, on a finite float. *)
Lemma float_pow_int_3 x : float_pow_int (Fin x) 3 = pow_result (x ^ 3).
Proof.
  unfold float_pow_int, Reqb, Rltb. simpl.
  destruct (Req_dec_T x 0) as [-> | Hx].
  - replace (0 * (0 * (0 * 1))) with 0 by ring.
    rewrite pow_result_flush by apply overflows_zero.
    now rewrite flush_zero.
  - destruct (Rlt_dec x 0); f_equal; ring.
Qed.

Lemma float_pow_int_2 x : float_pow_int (Fin x) 2 = pow_result (x ^ 2).
Proof.
  unfold float_pow_int, Reqb, Rltb. simpl.
  destruct (Req_dec_T x 0) as [-> | Hx].
  - replace (0 * (0 * 1)) with 0 by ring.
    rewrite pow_result_flush by apply overflows_zero.
    now rewrite flush_zero.
  - destruct (Rlt_dec x 0); f_equal; ring.
Qed.

Lemma root_pos E : 0 < Rpower E (1 / 3).
Proof. unfold Rpower. apply exp_pos. Qed.

Lemma is_integer_third : is_integer (1 / 3) = false.
Proof.
  unfold is_integer.
  replace (Int_part (1 / 3)) with 0%Z by (apply Int_part_spec; simpl; lra).
  apply Reqb_false. lra.
Qed.

Lemma exp_monotone x y : x <= y -> exp x <= exp y.
Proof.
  intros [H | ->]; [left; apply exp_increasing; assumption | right; reflexivity].
Qed.

Lemma ln_monotone x y : 0 < x <= y -> ln x <= ln y.
Proof.
  intros [H0 [H | ->]]; [left; apply ln_increasing; assumption | right; reflexivity].
Qed.

(** The cube root lies between its argument and 1. *)
Lemma root_small e : 0 < e <= 1 -> e <= Rpower e (1 / 3) <= 1.
Proof.
  intros [H0 H1]. unfold Rpower.
  assert (Hln : ln e <= 0) by (rewrite <- ln_1; apply ln_monotone; lra).
  split.
  - apply Rle_trans with (exp (ln e)); [rewrite exp_ln; lra |].
    apply exp_monotone. lra.
  - apply Rle_trans with (exp 0); [| rewrite exp_0; lra].
    apply exp_monotone. lra.
Qed.

Lemma root_large e : 1 <= e -> 1 <= Rpower e (1 / 3) <= e.
Proof.
  intros H1. unfold Rpower.
  assert (Hln : 0 <= ln e) by (rewrite <- ln_1; apply ln_monotone; lra).
  split.
  - apply Rle_trans with (exp 0); [rewrite exp_0; lra |].
    apply exp_monotone. lra.
  - apply Rle_trans with (exp (ln e)); [| rewrite exp_ln; lra].
    apply exp_monotone. lra.
Qed.

Lemma root_monotone e1 e2 :
  0 < e1 <= e2 -> Rpower e1 (1 / 3) <= Rpower e2 (1 / 3).
Proof. intros H. apply Rle_Rpower_l; lra. Qed.

(** The cube root of a cube. *)
Lemma root_cube k : 0 < k -> Rpower (k * k * k) (1 / 3) = k.
Proof.
  intros Hk.
  replace (k * k * k) with (Rpower k 3).
  - rewrite Rpower_mult. replace (3 * (1 / 3)) with 1 by field.
    apply Rpower_1. assumption.
  - replace 3 with (INR 3) by (simpl; ring).
    rewrite Rpower_pow by assumption. simpl. ring.
Qed.

(** The cube root of a positive double is a double, and so is 90 times
    it. *)
Lemma root_in_range e :
  float_min_bound < e < float_max_bound ->
  float_min_bound < Rpower e (1 / 3) <= 1e103.
Proof.
  intros [Hlo Hhi]. pose proof float_min_pos as Hm.
  pose proof float_min_upper as Hu.
  assert (Hmax : float_max_bound < 1e309)
    by (unfold float_max_bound, float_max_Z; lra).
  split.
  - destruct (Rle_dec e 1) as [H1 | H1].
    + pose proof (root_small e). lra.
    + pose proof (root_large e). lra.
  - rewrite <- (root_cube 1e103) by lra.
    apply root_monotone. split; [lra |].
    assert (1e309 = 1e103 * 1e103 * 1e103) by lra. lra.
Qed.

Lemma float_pow_pos_range e :
  float_min_bound < e < float_max_bound ->
  float_pow (Fin e) (1 / 3) = Returned (Float (Fin (Rpower e (1 / 3)))).
Proof.
  intros He. pose proof float_min_pos as Hm.
  pose proof (root_in_range e He) as [Hlo Hhi].
  unfold float_pow.
  rewrite (Reqb_false (1 / 3) 0) by lra.
  rewrite (Reqb_false e 0) by lra.
  rewrite (Rltb_false e 0) by lra.
  unfold pow_result.
  rewrite overflows_false by (rewrite Rabs_pos_eq; lra).
  unfold underflows. rewrite Rleb_false by (rewrite Rabs_pos_eq; lra).
  reflexivity.
Qed.

(** A power with a positive exponent returns, or stops on an overflow. *)
Lemma float_pow_int_outcome iv n :
  (0 < n)%Z ->
  (exists y, float_pow_int iv n = Returned y) \/
  float_pow_int iv n = Raised OverflowError.
Proof.
  intros Hn. unfold float_pow_int.
  replace (n =? 0)%Z with false by (symmetry; apply Z.eqb_neq; lia).
  replace (n <? 0)%Z with false by (symmetry; apply Z.ltb_ge; lia).
  replace (0 <? n)%Z with true by (symmetry; apply Z.ltb_lt; lia).
  destruct iv as [x | s |]; try (left; eexists; reflexivity).
  destruct (Reqb x 0); [left; eexists; reflexivity |].
  destruct (Rltb x 0);
    match goal with
    | |- context [pow_result ?p] =>
        destruct (pow_result_outcome p) as [[y ->] | ->];
        [left; eexists; reflexivity | right; reflexivity]
    end.
Qed.

Lemma float_pow_outcome iv w :
  0 < w ->
  (exists y, float_pow iv w = Returned y) \/
  float_pow iv w = Raised OverflowError.
Proof.
  intros Hw. unfold float_pow.
  rewrite (Reqb_false w 0) by lra.
  rewrite (Rltb_true 0 w) by assumption.
  rewrite (Rltb_false w 0) by lra.
  destruct iv as [x | s |]; try (left; eexists; reflexivity).
  destruct (Reqb x 0); [left; eexists; reflexivity |].
  destruct (Rltb x 0); [destruct (is_integer w) |];
    match goal with
    | |- context [pow_result ?p] =>
        destruct (pow_result_outcome p) as [[y ->] | ->];
        [left; eexists; reflexivity | right; reflexivity]
    end.
Qed.

(** ** Trigonometry of the impact angle *)

Lemma PI_bounds : 3 < PI <= 4.
Proof. split; [assert (H := PI2_3_2); lra | apply PI_4]. Qed.

Lemma radians_range a :
  0 < a <= 90 -> 0 < a * (PI / 180) <= PI / 2.
Proof.
  intros [H0 H90]. assert (Hpi := PI_RGT_0). split.
  - apply Rmult_lt_0_compat; lra.
  - replace (PI / 2) with (90 * (PI / 180)) by field.
    apply Rmult_le_compat_r; lra.
Qed.

Lemma sin_angle_range a :
  0 < a <= 90 -> 0 < sin (a * (PI / 180)) <= 1.
Proof.
  intros Ha. destruct (radians_range a Ha) as [Hlo Hhi].
  assert (Hpi := PI_RGT_0). split.
  - apply sin_gt_0; lra.
  - apply SIN_bound.
Qed.

Lemma sin_right_angle : sin (90 * (PI / 180)) = 1.
Proof. replace (90 * (PI / 180)) with (PI / 2) by field. apply sin_PI2. Qed.

(** The sine of a small angle is at least half the angle. *)
Lemma sin_lower x : 0 < x <= 1 -> x / 2 <= sin x.
Proof.
  intros [H0 H1]. pose proof PI_bounds as Hpi.
  assert (Hlb : sin_lb x <= sin x) by (apply SIN; lra).
  unfold sin_lb, sin_approx, sum_f_R0, sin_term in Hlb.
  simpl in Hlb.
  assert (Hx2 : 0 <= x * x <= 1) by nra.
  assert (Hx3 : 0 <= x * (x * x) <= x) by nra.
  assert (Hx5 : 0 <= x * (x * (x * (x * x)))) by nra.
  assert (Hx7 : x * (x * (x * (x * (x * (x * x))))) <= x * (x * (x * (x * x)))) by nra.
  lra.
Qed.

Lemma sin_angle_lower a :
  0 < a <= 90 -> Rmin (a / 200) (1 / 2) <= sin (a * (PI / 180)).
Proof.
  intros Ha. destruct (radians_range a Ha) as [Hlo Hhi].
  pose proof PI_bounds as Hpi.
  destruct (Rle_dec (a * (PI / 180)) 1) as [H1 | H1].
  - pose proof (sin_lower (a * (PI / 180)) (conj Hlo H1)) as Hs.
    apply Rle_trans with (a / 200); [apply Rmin_l |].
    assert (a / 200 <= a * (PI / 180) / 2) by nra. lra.
  - apply Rle_trans with (1 / 2); [apply Rmin_r |].
    pose proof (sin_lower 1 ltac:(lra)) as Hs.
    assert (sin 1 <= sin (a * (PI / 180))).
    { left. apply sin_increasing_1; lra. }
    lra.
Qed.

(** ** The energy *)

Lemma energy_J_pos d v : 0 < d -> 0 < v -> 0 < energy_J d v.
Proof.
  intros Hd Hv. unfold energy_J.
  assert (Hpi := PI_RGT_0).
  assert (H3 : 0 < (d / 2) ^ 3) by (apply pow_lt; lra).
  assert (H2 : 0 < v ^ 2) by (apply pow_lt; lra).
  assert (H : 0 < 3500 * (4 / 3) * PI * (d / 2) ^ 3).
  { apply Rmult_lt_0_compat; [| assumption]. lra. }
  apply Rmult_lt_0_compat; [lra | assumption].
Qed.

Lemma energy_Mt_pos d v : 0 < d -> 0 < v -> 0 < energy_Mt d v.
Proof.
  intros Hd Hv. unfold energy_Mt.
  assert (H := energy_J_pos d v Hd Hv). lra.
Qed.

(** The program's order of evaluation gives the formula's value. *)
Lemma energy_J_code d v :
  0.5 * (3500 * (4 / 3 * PI * (d / 2) ^ 3)) * v ^ 2 = energy_J d v.
Proof. unfold energy_J. ring. Qed.

Lemma mult_bounds a b la ua lb ub :
  0 <= la <= a -> a <= ua -> 0 <= lb <= b -> b <= ub ->
  la * lb <= a * b <= ua * ub.
Proof.
  intros [Hla Ha] Hua [Hlb Hb] Hub. split.
  - apply Rmult_le_compat; assumption.
  - apply Rmult_le_compat; lra.
Qed.

(** The sizes of the quantities of step 2 on ordinary sizes. *)
Lemma ordinary_cube d : 1e-30 <= d <= 1e30 -> 1e-91 <= (d / 2) ^ 3 <= 1e90.
Proof.
  intros [Hlo Hhi].
  assert (H1 : (1e-30 / 2) ^ 3 <= (d / 2) ^ 3) by (apply pow_incr; lra).
  assert (H2 : (d / 2) ^ 3 <= (1e30 / 2) ^ 3) by (apply pow_incr; lra).
  lra.
Qed.

Lemma ordinary_square v : 1e-30 <= v <= 1e30 -> 1e-60 <= v ^ 2 <= 1e60.
Proof.
  intros [Hlo Hhi].
  assert (H1 : 1e-30 ^ 2 <= v ^ 2) by (apply pow_incr; lra).
  assert (H2 : v ^ 2 <= 1e30 ^ 2) by (apply pow_incr; lra).
  lra.
Qed.

Lemma ordinary_energy_J d v :
  ordinary_sizes d v -> 1e-148 <= energy_J d v <= 1e154.
Proof.
  intros [Hd Hv]. rewrite <- energy_J_code.
  pose proof PI_bounds as Hpi.
  pose proof (ordinary_cube d Hd) as Hc.
  pose proof (ordinary_square v Hv) as Hs.
  pose proof (mult_bounds (4 / 3 * PI) ((d / 2) ^ 3) 4 (16 / 3) 1e-91 1e90
                ltac:(lra) ltac:(lra) ltac:(lra) ltac:(lra)) as Hvol.
  pose proof (mult_bounds (0.5 * (3500 * (4 / 3 * PI * (d / 2) ^ 3))) (v ^ 2)
                (0.5 * (3500 * (4 * 1e-91))) (0.5 * (3500 * (16 / 3 * 1e90)))
                1e-60 1e60
                ltac:(lra) ltac:(lra) ltac:(lra) ltac:(lra)) as HJ.
  lra.
Qed.

Lemma ordinary_energy_Mt d v :
  ordinary_sizes d v -> 1e-164 <= energy_Mt d v <= 1e139.
Proof.
  intros H. pose proof (ordinary_energy_J d v H). unfold energy_Mt. lra.
Qed.

Lemma ordinary_root d v :
  ordinary_sizes d v -> 1e-164 <= Rpower (energy_Mt d v) (1 / 3) <= 1e139.
Proof.
  intros H. pose proof (ordinary_energy_Mt d v H) as He.
  destruct (Rle_dec (energy_Mt d v) 1) as [H1 | H1].
  - pose proof (root_small (energy_Mt d v)). lra.
  - pose proof (root_large (energy_Mt d v)). lra.
Qed.

Lemma ordinary_crater_short d v :
  ordinary_sizes d v -> 9e-163 <= crater_short d v <= 9e140.
Proof.
  intros H. pose proof (ordinary_root d v H). unfold crater_short. lra.
Qed.

(** The kinetic energy of the program on ordinary sizes. *)
Lemma kinetic_energy_ordinary d v :
  ordinary_sizes d v ->
  kinetic_energy_of (Fin ((d / 2) ^ 3)) (Fin (v ^ 2)) = Fin (energy_J d v).
Proof.
  intros H. pose proof (ordinary_energy_J d v H) as HJ.
  destruct H as [Hd Hv].
  pose proof PI_bounds as Hpi.
  pose proof (ordinary_cube d Hd) as Hc.
  pose proof (ordinary_square v Hv) as Hs.
  pose proof (mult_bounds (4 / 3 * PI) ((d / 2) ^ 3) 4 (16 / 3) 1e-91 1e90
                ltac:(lra) ltac:(lra) ltac:(lra) ltac:(lra)) as Hvol.
  unfold kinetic_energy_of, math_pi, ASTEROID_DENSITY_KGM3.
  rewrite (fmul_pos (4 / 3) PI) by lra.
  rewrite (fmul_pos (4 / 3 * PI)) by lra.
  rewrite (fmul_pos 3500) by lra.
  rewrite (fmul_pos 0.5) by lra.
  rewrite fmul_pos by (rewrite energy_J_code; lra).
  now rewrite energy_J_code.
Qed.

(** ** Evaluation of an Earth impact *)

(** What a call for Earth that returns has computed. *)
Lemma calculate_earth_inversion_under env now d v a lat lon w r :
  calculate_impact_effects_under env now d v a lat lon "Earth" w = Returned r ->
  exists r3 v2 root sine long tripled prec J E,
    float_pow_int (fdiv d (Fin 2)) 3 = Returned r3 /\
    float_pow_int v 2 = Returned v2 /\
    J = kinetic_energy_of r3 v2 /\
    E = fdiv J JOULES_PER_MEGATON_TNT /\
    float_pow E (1 / 3) = Returned root /\
    np_sin env (np_radians a) = Returned sine /\
    num_truediv env (num_mul (Float (Fin 90)) root) sine = Returned long /\
    np_mul env (Fin 3) long = Returned tripled /\
    num_truediv env tripled (Fin 1000) = Returned prec /\
    r = earth_report now lat lon w a J E long
          (num_mul (Float (Fin 90)) root) prec
          (if fle (Fin 0.1) E && flt E (Fin 1000)
           then VNum (num_mul (Float (Fin 30)) root) else VInt 0).
Proof.
  unfold calculate_impact_effects_under.
  cbn [String.eqb Ascii.eqb Bool.eqb negb].
  destruct (float_pow_int (fdiv d (Fin 2)) 3) as [r3 |] eqn:H3;
    [| discriminate].
  destruct (float_pow_int v 2) as [v2 |] eqn:H2; [| discriminate].
  cbn [bind]. fold (kinetic_energy_of r3 v2).
  set (J := kinetic_energy_of r3 v2).
  set (E := fdiv J JOULES_PER_MEGATON_TNT).
  destruct (float_pow E (1 / 3)) as [root |] eqn:Hroot; [| discriminate].
  cbn [bind].
  destruct (np_sin env (np_radians a)) as [sine |] eqn:Hsine; [| discriminate].
  cbn [bind].
  destruct (num_truediv env (num_mul (Float (Fin 90)) root) sine)
    as [long |] eqn:Hlong; [| discriminate].
  cbn [bind].
  destruct (np_mul env (Fin 3) long) as [tripled |] eqn:Htripled;
    [| discriminate].
  cbn [bind].
  destruct (num_truediv env tripled (Fin 1000)) as [prec |] eqn:Hprec;
    [| discriminate].
  cbn [bind].
  intros Hr. exists r3, v2, root, sine, long, tripled, prec, J, E.
  do 9 (split; [assumption || reflexivity |]).
  destruct (fle (Fin 0.1) E && flt E (Fin 1000)) eqn:Hair;
    cbn [bind] in Hr; injection Hr as <-;
    unfold earth_report; rewrite Hair; reflexivity.
Qed.

Lemma calculate_earth_inversion now d v a lat lon w r :
  calculate_impact_effects now d v a lat lon "Earth" w = Returned r ->
  exists r3 v2 root sine long tripled prec J E,
    float_pow_int (fdiv d (Fin 2)) 3 = Returned r3 /\
    float_pow_int v 2 = Returned v2 /\
    J = kinetic_energy_of r3 v2 /\
    E = fdiv J JOULES_PER_MEGATON_TNT /\
    float_pow E (1 / 3) = Returned root /\
    np_sin default_environment (np_radians a) = Returned sine /\
    num_truediv default_environment (num_mul (Float (Fin 90)) root) sine
      = Returned long /\
    np_mul default_environment (Fin 3) long = Returned tripled /\
    num_truediv default_environment tripled (Fin 1000) = Returned prec /\
    r = earth_report now lat lon w a J E long
          (num_mul (Float (Fin 90)) root) prec
          (if fle (Fin 0.1) E && flt E (Fin 1000)
           then VNum (num_mul (Float (Fin 30)) root) else VInt 0).
Proof. apply calculate_earth_inversion_under. Qed.

(** The same, the other way round. *)
Lemma calculate_earth_steps env now d v a lat lon w
    r3 v2 root sine long tripled prec :
  float_pow_int (fdiv d (Fin 2)) 3 = Returned r3 ->
  float_pow_int v 2 = Returned v2 ->
  float_pow (fdiv (kinetic_energy_of r3 v2) JOULES_PER_MEGATON_TNT) (1 / 3)
    = Returned root ->
  np_sin env (np_radians a) = Returned sine ->
  num_truediv env (num_mul (Float (Fin 90)) root) sine = Returned long ->
  np_mul env (Fin 3) long = Returned tripled ->
  num_truediv env tripled (Fin 1000) = Returned prec ->
  calculate_impact_effects_under env now d v a lat lon "Earth" w
    = Returned
        (earth_report now lat lon w a (kinetic_energy_of r3 v2)
           (fdiv (kinetic_energy_of r3 v2) JOULES_PER_MEGATON_TNT) long
           (num_mul (Float (Fin 90)) root) prec
           (if fle (Fin 0.1)
                 (fdiv (kinetic_energy_of r3 v2) JOULES_PER_MEGATON_TNT)
               && flt (fdiv (kinetic_energy_of r3 v2) JOULES_PER_MEGATON_TNT)
                    (Fin 1000)
            then VNum (num_mul (Float (Fin 30)) root) else VInt 0)).
Proof.
  intros H3 H2 Hroot Hsine Hlong Htripled Hprec.
  unfold calculate_impact_effects_under.
  cbn [String.eqb Ascii.eqb Bool.eqb negb].
  rewrite H3. cbn [bind]. rewrite H2. cbn [bind].
  fold (kinetic_energy_of r3 v2).
  rewrite Hroot. cbn [bind]. rewrite Hsine. cbn [bind].
  rewrite Hlong. cbn [bind]. rewrite Htripled. cbn [bind].
  rewrite Hprec. cbn [bind].
  unfold earth_report.
  destruct (fle (Fin 0.1)
              (fdiv (kinetic_energy_of r3 v2) JOULES_PER_MEGATON_TNT)
            && flt (fdiv (kinetic_energy_of r3 v2) JOULES_PER_MEGATON_TNT)
                 (Fin 1000));
    reflexivity.
Qed.

(** The operations of NumPy in the default environment. *)
Lemma np_sin_default x :
  np_sin default_environment x = Returned (np_sin_value x).
Proof. apply np_result_default. Qed.

Lemma num_truediv_default x s :
  num_truediv default_environment (Float x) s = Returned (Float (fdiv x s)).
Proof. apply np_result_default. Qed.

Lemma np_mul_default k x :
  np_mul default_environment k (Float x) = Returned (Float (fmul k x)).
Proof. apply np_result_default. Qed.

(** Steps 2 to 4 on ordinary sizes. *)
Lemma ordinary_radius_cubed d v :
  ordinary_sizes d v ->
  float_pow_int (fdiv (Fin d) (Fin 2)) 3 = Returned (Fin ((d / 2) ^ 3)).
Proof.
  intros [Hd Hv]. pose proof (ordinary_cube d Hd).
  rewrite fdiv_pos by lra. rewrite float_pow_int_3.
  apply pow_result_safe. rewrite Rabs_pos_eq; lra.
Qed.

Lemma ordinary_speed_squared d v :
  ordinary_sizes d v ->
  float_pow_int (Fin v) 2 = Returned (Fin (v ^ 2)).
Proof.
  intros [Hd Hv]. pose proof (ordinary_square v Hv).
  rewrite float_pow_int_2.
  apply pow_result_safe. rewrite Rabs_pos_eq; lra.
Qed.

Lemma ordinary_megatons d v :
  ordinary_sizes d v ->
  fdiv (Fin (energy_J d v)) JOULES_PER_MEGATON_TNT = Fin (energy_Mt d v).
Proof.
  intros H. pose proof (ordinary_energy_Mt d v H).
  unfold JOULES_PER_MEGATON_TNT. rewrite fdiv_pos; [reflexivity | lra |].
  fold (energy_Mt d v). lra.
Qed.

Lemma ordinary_energy_root d v :
  ordinary_sizes d v ->
  float_pow (Fin (energy_Mt d v)) (1 / 3)
    = Returned (Float (Fin (Rpower (energy_Mt d v) (1 / 3)))).
Proof.
  intros H. pose proof (ordinary_energy_Mt d v H).
  apply float_pow_pos_range.
  pose proof float_min_upper. pose proof float_max_lower. lra.
Qed.

Lemma ordinary_short_axis d v :
  ordinary_sizes d v ->
  num_mul (Float (Fin 90)) (Float (Fin (Rpower (energy_Mt d v) (1 / 3))))
    = Float (Fin (crater_short d v)).
Proof.
  intros H. pose proof (ordinary_crater_short d v H).
  cbn [num_mul]. rewrite fmul_pos; [reflexivity |].
  fold (crater_short d v). lra.
Qed.

Lemma ordinary_shock_radius d v :
  ordinary_sizes d v ->
  num_mul (Float (Fin 30)) (Float (Fin (Rpower (energy_Mt d v) (1 / 3))))
    = Float (Fin (30 * Rpower (energy_Mt d v) (1 / 3))).
Proof.
  intros H. pose proof (ordinary_root d v H).
  cbn [num_mul]. rewrite fmul_pos; [reflexivity | lra].
Qed.

(** The fields of the report of step 7. *)
Lemma earth_report_fields now lat lon w d v a long prec :
  let E := energy_Mt d v in
  let r := earth_report now lat lon w (Fin a) (Fin (energy_J d v)) (Fin E)
             (Float long) (Float (Fin (crater_short d v))) (Float prec)
             (if fle (Fin 0.1) (Fin E) && flt (Fin E) (Fin 1000)
              then VFin (30 * Rpower E (1 / 3)) else VInt 0) in
  field ["impact_energy_J"] r = Some (VFin (energy_J d v)) /\
  field ["impact_energy_Mt"] r = Some (VFin E) /\
  field ["crater_details"; "short_axis_m_est"] r
    = Some (VFin (crater_short d v)) /\
  field ["crater_details"; "long_axis_m_est"] r = Some (VNum (Float long)) /\
  field ["precaution_radius_km_est"] r = Some (VNum (Float prec)) /\
  field ["crater_details"; "shape"] r
    = Some (VStr (if Rltb a 80 then "oval" else "circular")) /\
  field ["severity_band"] r
    = Some (VStr (band (get_severity_details (Fin E)))) /\
  field ["severity_color"] r
    = Some (VStr (color (get_severity_details (Fin E)))) /\
  field ["recommended_actions"] r
    = Some (VList (map VStr (actions (get_severity_details (Fin E))))) /\
  field ["shockwave_effects"; "is_airburst_risk"] r
    = Some (VBool (Rleb 0.1 E && Rltb E 1000)) /\
  field ["shockwave_effects"; "damage_radius_km_est"] r
    = Some (if Rleb 0.1 E && Rltb E 1000
            then VFin (30 * Rpower E (1 / 3)) else VInt 0) /\
  field ["tsunami_risk"] r = Some (VBool (w && Rltb 1 E)).
Proof.
  intros E r. repeat split; reflexivity.
Qed.

(** On ordinary sizes the call reaches the division by the sine with the
    energy and the short axis of the formulas. *)
Lemma calculate_earth_ordinary_sizes env now d v a lat lon w sine long tripled prec :
  ordinary_sizes d v ->
  np_sin env (np_radians (Fin a)) = Returned sine ->
  num_truediv env (Float (Fin (crater_short d v))) sine = Returned (Float long) ->
  np_mul env (Fin 3) (Float long) = Returned tripled ->
  num_truediv env tripled (Fin 1000) = Returned (Float prec) ->
  calculate_impact_effects_under env now (Fin d) (Fin v) (Fin a) lat lon
      "Earth" w
    = Returned
        (earth_report now lat lon w (Fin a) (Fin (energy_J d v))
           (Fin (energy_Mt d v)) (Float long) (Float (Fin (crater_short d v)))
           (Float prec)
           (if fle (Fin 0.1) (Fin (energy_Mt d v))
               && flt (Fin (energy_Mt d v)) (Fin 1000)
            then VFin (30 * Rpower (energy_Mt d v) (1 / 3)) else VInt 0)).
Proof.
  intros H Hsine Hlong Htripled Hprec.
  rewrite (calculate_earth_steps env now (Fin d) (Fin v) (Fin a) lat lon w
             (Fin ((d / 2) ^ 3)) (Fin (v ^ 2))
             (Float (Fin (Rpower (energy_Mt d v) (1 / 3))))
             sine (Float long) tripled (Float prec)).
  - rewrite kinetic_energy_ordinary, ordinary_megatons by assumption.
    rewrite ordinary_short_axis, ordinary_shock_radius by assumption.
    reflexivity.
  - apply (ordinary_radius_cubed d v H).
  - apply (ordinary_speed_squared d v H).
  - rewrite kinetic_energy_ordinary, ordinary_megatons by assumption.
    apply ordinary_energy_root; assumption.
  - assumption.
  - rewrite ordinary_short_axis by assumption. assumption.
  - assumption.
  - assumption.
Qed.

(** With ordinary sizes every quantity of the energy is an ordinary float;
    the angle is any finite float and the environment is the default one. *)
Lemma calculate_earth_positive now d v a lat lon w :
  ordinary_sizes d v ->
  exists r,
    calculate_impact_effects now (Fin d) (Fin v) (Fin a) lat lon "Earth" w
      = Returned r /\
    earth_fields d v a w r.
Proof.
  intros H. unfold calculate_impact_effects.
  eexists. split.
  - eapply calculate_earth_ordinary_sizes; [assumption | ..].
    + apply np_sin_default.
    + apply num_truediv_default.
    + apply np_mul_default.
    + apply num_truediv_default.
  - pose proof (earth_report_fields now lat lon w d v a
                  (fdiv (Fin (crater_short d v))
                        (np_sin_value (np_radians (Fin a))))
                  (fdiv (fmul (Fin 3)
                           (fdiv (Fin (crater_short d v))
                                 (np_sin_value (np_radians (Fin a)))))
                        (Fin 1000))) as Hf.
    cbv zeta in Hf.
    destruct Hf as (? & ? & ? & ? & ? & ? & ? & ? & ? & ? & ? & ?).
    constructor; assumption.
Qed.

(** ** Bodies other than Earth *)

(** C2. For every request whose [impact_body] is not "Earth", the function
    returns the report made of exactly two fields, [impact_body] (the
    request's) and [notes] = "No direct effect on Earth expected.", whatever
    the other inputs and the clock are. *)
Theorem non_earth_minimal_report now d v a lat lon body w :
  body <> "Earth" ->
  calculate_impact_effects now d v a lat lon body w
    = Returned [("impact_body", VStr body);
                ("notes", VStr "No direct effect on Earth expected.")].
Proof.
  intros Hbody.
  unfold calculate_impact_effects, calculate_impact_effects_under.
  destruct (String.eqb_spec body "Earth") as [Heq | _]; [contradiction |].
  reflexivity.
Qed.

(** The request for Mars, here with an angle of zero and a NaN diameter. *)
Lemma non_earth_minimal_report_mars :
  calculate_impact_effects "2025-10-04T09:30:00" NaN (Fin 20000) (Fin 0)
      (Fin 0) (Fin 0) "Mars" true
    = Returned [("impact_body", VStr "Mars");
                ("notes", VStr "No direct effect on Earth expected.")] /\
  dict_keys [("impact_body", VStr "Mars");
             ("notes", VStr "No direct effect on Earth expected.")]
    = ["impact_body"; "notes"].
Proof.
  split; [| reflexivity].
  apply (non_earth_minimal_report "2025-10-04T09:30:00" NaN (Fin 20000) (Fin 0)
           (Fin 0) (Fin 0) "Mars" true).
  discriminate.
Defined.


(** ** Every report for Earth *)

(** The comparisons that decide the airburst flag and the band agree on
    every float, NaN and the infinities included. *)
Lemma airburst_band (E : float) :
  fle (Fin 0.1) E && flt E (Fin 1000) = true <->
  band (get_severity_details E) = "City Level Event" \/
  band (get_severity_details E) = "Regional Threat".
Proof.
  unfold get_severity_details.
  destruct E as [e | s |]; cbn [fle flt band].
  - unfold Rleb, Rltb.
    destruct (Rle_dec 0.1 e), (Rlt_dec e 0.1), (Rlt_dec e 10),
      (Rlt_dec e 1000); try lra; cbn;
      (split; [intros H; try discriminate; auto
              | intros [H | H]; try discriminate; auto]).
  - destruct s; cbn; (split; [intros H | intros [H | H]]); discriminate.
  - cbn. split; [intros H | intros [H | H]]; discriminate.
Qed.

(** A float above 1 is not below 0.1. *)
Lemma above_one_band (E : float) :
  fgt E (Fin 1) = true ->
  (1 <= band_index (band (get_severity_details E)))%nat.
Proof.
  unfold get_severity_details, fgt.
  destruct E as [e | s |]; cbn [flt]; try discriminate.
  - intros H%Rltb_spec. rewrite Rltb_false by lra.
    destruct (Rltb e 10); [cbn; lia |].
    destruct (Rltb e 1000); cbn; lia.
  - intros H. destruct s; [discriminate |]. cbn. lia.
Qed.

(** An airburst energy is a positive real, so its cube root is one too,
    and so is 30 times it. *)
Lemma airburst_root (E : float) root :
  fle (Fin 0.1) E && flt E (Fin 1000) = true ->
  float_pow E (1 / 3) = Returned root ->
  exists e, E = Fin e /\ 0.1 <= e < 1000 /\
            root = Float (Fin (Rpower e (1 / 3))) /\
            num_mul (Float (Fin 30)) root
              = Float (Fin (30 * Rpower e (1 / 3))).
Proof.
  intros Hair Hroot. apply andb_true_iff in Hair. destruct Hair as [Hlo Hhi].
  destruct E as [e | s |]; cbn [fle flt] in Hlo, Hhi.
  - apply Rleb_spec in Hlo. apply Rltb_spec in Hhi.
    assert (Hr : 0.1 <= Rpower e (1 / 3) <= 1000).
    { destruct (Rle_dec e 1) as [H1 | H1].
      - pose proof (root_small e). lra.
      - pose proof (root_large e). lra. }
    rewrite float_pow_pos_range in Hroot
      by (pose proof float_min_upper; pose proof float_max_lower; lra).
    injection Hroot as <-.
    exists e. repeat split; try assumption.
    cbn [num_mul]. rewrite fmul_pos by lra. reflexivity.
  - destruct s; discriminate.
  - discriminate.
Qed.

(** X1. Schema.  Every call for Earth that returns gives a report with the
    same fifteen keys in the same order, with the same keys in its three
    nested dicts, naming Earth, echoing [lat], [lon] and [impact_in_water]
    as they were passed (no range is enforced on the coordinates), and
    carrying the fixed confidence of 75 and the fixed note. *)
Theorem earth_report_schema now d v a lat lon w r :
  calculate_impact_effects now d v a lat lon "Earth" w = Returned r ->
  dict_keys r
    = ["impact_body"; "impact_coords"; "impact_in_water"; "impact_energy_J";
       "impact_energy_Mt"; "crater_details"; "precaution_radius_km_est";
       "severity_band"; "severity_color"; "shockwave_effects"; "tsunami_risk";
       "recommended_actions"; "confidence_pct"; "notes"; "timestamp_utc"] /\
  (exists coords crater shock,
     field ["impact_coords"] r = Some (VDict coords) /\
     dict_keys coords = ["lat"; "lon"] /\
     field ["crater_details"] r = Some (VDict crater) /\
     dict_keys crater = ["shape"; "long_axis_m_est"; "short_axis_m_est"] /\
     field ["shockwave_effects"] r = Some (VDict shock) /\
     dict_keys shock
       = ["is_airburst_risk"; "damage_radius_km_est"; "description"]) /\
  field ["impact_body"] r = Some (VStr "Earth") /\
  field ["impact_coords"; "lat"] r = Some (VNum (Float lat)) /\
  field ["impact_coords"; "lon"] r = Some (VNum (Float lon)) /\
  field ["impact_in_water"] r = Some (VBool w) /\
  field ["confidence_pct"] r = Some (VInt 75) /\
  field ["notes"] r
    = Some (VStr "Prototype estimate based on simplified models. Not for official use.").
Proof.
  intros Hr.
  destruct (calculate_earth_inversion _ _ _ _ _ _ _ _ Hr)
    as (r3 & v2 & root & sine & long & tripled & prec & J & E
        & _ & _ & _ & _ & _ & _ & _ & _ & _ & ->).
  split; [reflexivity |].
  split; [do 3 eexists; repeat split; reflexivity |].
  repeat split; reflexivity.
Qed.

(** The schema of the report for coordinates outside any range. *)
Lemma earth_report_schema_off_range :
  exists r,
    calculate_impact_effects "2025-10-04T09:30:00" (Fin 20) (Fin 20000)
        (Fin 45) (Fin 1000) (Fin (-1000)) "Earth" true
      = Returned r /\
    dict_keys r
      = ["impact_body"; "impact_coords"; "impact_in_water"; "impact_energy_J";
         "impact_energy_Mt"; "crater_details"; "precaution_radius_km_est";
         "severity_band"; "severity_color"; "shockwave_effects"; "tsunami_risk";
         "recommended_actions"; "confidence_pct"; "notes"; "timestamp_utc"] /\
    field ["impact_coords"; "lat"] r = Some (VNum (Float (Fin 1000))) /\
    field ["impact_coords"; "lon"] r = Some (VNum (Float (Fin (-1000)))).
Proof.
  destruct (calculate_earth_positive "2025-10-04T09:30:00" 20 20000 45
              (Fin 1000) (Fin (-1000)) true) as (r & Hr & _);
    [unfold ordinary_sizes; lra |].
  exists r. split; [exact Hr |].
  destruct (earth_report_schema _ _ _ _ _ _ _ _ Hr)
    as (Hkeys & _ & _ & Hlat & Hlon & _).
  repeat split; assumption.
Defined.

(** X2. The airburst flag and the severity band never disagree: in every
    report for Earth, [is_airburst_risk] is true exactly when the band is
    "City Level Event" or "Regional Threat", whatever the inputs were (NaN
    and infinite energies included). *)
Theorem airburst_iff_middle_band now d v a lat lon w r :
  calculate_impact_effects now d v a lat lon "Earth" w = Returned r ->
  exists airburst b,
    field ["shockwave_effects"; "is_airburst_risk"] r = Some (VBool airburst) /\
    field ["severity_band"] r = Some (VStr b) /\
    (airburst = true <-> b = "City Level Event" \/ b = "Regional Threat").
Proof.
  intros Hr.
  destruct (calculate_earth_inversion _ _ _ _ _ _ _ _ Hr)
    as (r3 & v2 & root & sine & long & tripled & prec & J & E
        & _ & _ & _ & _ & _ & _ & _ & _ & _ & ->).
  exists (fle (Fin 0.1) E && flt E (Fin 1000)), (band (get_severity_details E)).
  split; [reflexivity |]. split; [reflexivity |]. apply airburst_band.
Qed.

(** At an obtuse angle, outside the valid range, the two still agree. *)
Lemma airburst_iff_middle_band_obtuse :
  exists r airburst b,
    calculate_impact_effects "2025-10-04T09:30:00" (Fin 20) (Fin 20000)
        (Fin 120) (Fin 55.15) (Fin 61.40) "Earth" false
      = Returned r /\
    field ["shockwave_effects"; "is_airburst_risk"] r = Some (VBool airburst) /\
    field ["severity_band"] r = Some (VStr b) /\
    (airburst = true <-> b = "City Level Event" \/ b = "Regional Threat").
Proof.
  destruct (calculate_earth_positive "2025-10-04T09:30:00" 20 20000 120
              (Fin 55.15) (Fin 61.40) false) as (r & Hr & _);
    [unfold ordinary_sizes; lra |].
  destruct (airburst_iff_middle_band _ _ _ _ _ _ _ _ Hr)
    as (airburst & b & H).
  exists r, airburst, b. split; [exact Hr | exact H].
Defined.

(** X3. The shockwave record is coherent in every report for Earth: the
    description is the window-breakage text exactly when the flag is true and
    the negligible-effects text otherwise; with the flag false the damage
    radius is the integer 0; with the flag true the energy is a real number
    in [0.1, 1000) and the radius is 30 times its cube root. *)
Theorem shockwave_coherent now d v a lat lon w r :
  calculate_impact_effects now d v a lat lon "Earth" w = Returned r ->
  exists airburst,
    field ["shockwave_effects"; "is_airburst_risk"] r = Some (VBool airburst) /\
    field ["shockwave_effects"; "description"] r
      = Some (VStr (if airburst
                    then "Widespread window breakage expected. Risk of injury from flying glass."
                    else "Negligible atmospheric shockwave effects.")) /\
    (airburst = false ->
     field ["shockwave_effects"; "damage_radius_km_est"] r = Some (VInt 0)) /\
    (airburst = true ->
     exists e,
       field ["impact_energy_Mt"] r = Some (VFin e) /\ 0.1 <= e < 1000 /\
       field ["shockwave_effects"; "damage_radius_km_est"] r
         = Some (VFin (30 * Rpower e (1 / 3)))).
Proof.
  intros Hr.
  destruct (calculate_earth_inversion _ _ _ _ _ _ _ _ Hr)
    as (r3 & v2 & root & sine & long & tripled & prec & J & E
        & _ & _ & _ & _ & Hroot & _ & _ & _ & _ & ->).
  exists (fle (Fin 0.1) E && flt E (Fin 1000)).
  split; [reflexivity |]. split; [reflexivity |]. split.
  - intros Hair. unfold field, earth_report.
    cbn [dict_path dict_get String.eqb Ascii.eqb Bool.eqb].
    now rewrite Hair.
  - intros Hair.
    destruct (airburst_root E root Hair Hroot) as (e & -> & He & _ & H30).
    exists e. split; [reflexivity |]. split; [exact He |].
    unfold field, earth_report.
    cbn [dict_path dict_get String.eqb Ascii.eqb Bool.eqb].
    rewrite Hair, H30. reflexivity.
Qed.

(** A request with a negative angle: the shockwave record is the same. *)
Lemma shockwave_coherent_negative_angle :
  exists r airburst,
    calculate_impact_effects "2025-10-04T09:30:00" (Fin 20) (Fin 20000)
        (Fin (-45)) (Fin 55.15) (Fin 61.40) "Earth" false
      = Returned r /\
    field ["shockwave_effects"; "is_airburst_risk"] r = Some (VBool airburst) /\
    field ["shockwave_effects"; "description"] r
      = Some (VStr (if airburst
                    then "Widespread window breakage expected. Risk of injury from flying glass."
                    else "Negligible atmospheric shockwave effects.")) /\
    (airburst = false ->
     field ["shockwave_effects"; "damage_radius_km_est"] r = Some (VInt 0)) /\
    (airburst = true ->
     exists e,
       field ["impact_energy_Mt"] r = Some (VFin e) /\ 0.1 <= e < 1000 /\
       field ["shockwave_effects"; "damage_radius_km_est"] r
         = Some (VFin (30 * Rpower e (1 / 3)))).
Proof.
  destruct (calculate_earth_positive "2025-10-04T09:30:00" 20 20000 (-45)
              (Fin 55.15) (Fin 61.40) false) as (r & Hr & _);
    [unfold ordinary_sizes; lra |].
  destruct (shockwave_coherent _ _ _ _ _ _ _ _ Hr) as (airburst & H).
  exists r, airburst. split; [exact Hr | exact H].
Defined.

(** X4. A tsunami is flagged only for an impact in water whose band is
    above "Local Event"; an impact on land is never flagged, whatever its
    energy. *)
Theorem tsunami_needs_water_and_band now d v a lat lon w r :
  calculate_impact_effects now d v a lat lon "Earth" w = Returned r ->
  exists tsunami b,
    field ["tsunami_risk"] r = Some (VBool tsunami) /\
    field ["severity_band"] r = Some (VStr b) /\
    (tsunami = true -> w = true /\ (1 <= band_index b)%nat) /\
    (w = false -> tsunami = false).
Proof.
  intros Hr.
  destruct (calculate_earth_inversion _ _ _ _ _ _ _ _ Hr)
    as (r3 & v2 & root & sine & long & tripled & prec & J & E
        & _ & _ & _ & _ & _ & _ & _ & _ & _ & ->).
  exists (w && fgt E (Fin 1)), (band (get_severity_details E)).
  split; [reflexivity |]. split; [reflexivity |]. split.
  - intros H. apply andb_true_iff in H. destruct H as [Hw HE].
    split; [assumption | now apply above_one_band].
  - intros ->. reflexivity.
Qed.

(** A 2 km body on land: a global event and no tsunami flag. *)
Lemma tsunami_needs_water_and_band_land :
  exists r tsunami b,
    calculate_impact_effects "2025-10-04T09:30:00" (Fin 2000) (Fin 20000)
        (Fin 45) (Fin 55.15) (Fin 61.40) "Earth" false
      = Returned r /\
    field ["tsunami_risk"] r = Some (VBool tsunami) /\
    field ["severity_band"] r = Some (VStr b) /\
    (tsunami = true -> false = true /\ (1 <= band_index b)%nat) /\
    (false = false -> tsunami = false).
Proof.
  destruct (calculate_earth_positive "2025-10-04T09:30:00" 2000 20000 45
              (Fin 55.15) (Fin 61.40) false) as (r & Hr & _);
    [unfold ordinary_sizes; lra |].
  destruct (tsunami_needs_water_and_band _ _ _ _ _ _ _ _ Hr)
    as (tsunami & b & H).
  exists r, tsunami, b. split; [exact Hr | exact H].
Defined.

(** X19. The colour and the actions of a report always belong to its band:
    in every report for Earth, [severity_band], [severity_color] and
    [recommended_actions] are the three components of one of the four
    severity profiles. *)
Theorem severity_fields_one_profile now d v a lat lon w r :
  calculate_impact_effects now d v a lat lon "Earth" w = Returned r ->
  exists s,
    In s [local_event; city_level_event; regional_threat; global_event] /\
    field ["severity_band"] r = Some (VStr (band s)) /\
    field ["severity_color"] r = Some (VStr (color s)) /\
    field ["recommended_actions"] r = Some (VList (map VStr (actions s))).
Proof.
  intros Hr.
  destruct (calculate_earth_inversion _ _ _ _ _ _ _ _ Hr)
    as (r3 & v2 & root & sine & long & tripled & prec & J & E
        & _ & _ & _ & _ & _ & _ & _ & _ & _ & ->).
  exists (get_severity_details E). split.
  - unfold get_severity_details.
    destruct (flt E (Fin 0.1)); [simpl; auto |].
    destruct (flt E (Fin 10)); [simpl; auto |].
    destruct (flt E (Fin 1000)); simpl; auto.
  - repeat split; reflexivity.
Qed.

(** The report of a body at an obtuse angle carries one profile. *)
Lemma severity_fields_one_profile_example :
  exists r s,
    calculate_impact_effects "2025-10-04T09:30:00" (Fin 200) (Fin 20000)
        (Fin 120) (Fin 55.15) (Fin 61.40) "Earth" false
      = Returned r /\
    In s [local_event; city_level_event; regional_threat; global_event] /\
    field ["severity_band"] r = Some (VStr (band s)) /\
    field ["severity_color"] r = Some (VStr (color s)) /\
    field ["recommended_actions"] r = Some (VList (map VStr (actions s))).
Proof.
  destruct (calculate_earth_positive "2025-10-04T09:30:00" 200 20000 120
              (Fin 55.15) (Fin 61.40) false) as (r & Hr & _);
    [unfold ordinary_sizes; lra |].
  destruct (severity_fields_one_profile _ _ _ _ _ _ _ _ Hr) as (s & H).
  exists r, s. split; [exact Hr | exact H].
Defined.

(** ** The test block *)

Lemma earth_body_field now d v a lat lon w r :
  calculate_impact_effects now d v a lat lon "Earth" w = Returned r ->
  field ["impact_body"] r = Some (VStr "Earth").
Proof.
  intros Hr.
  destruct (calculate_earth_inversion _ _ _ _ _ _ _ _ Hr)
    as (r3 & v2 & root & sine & long & tripled & prec & J & E
        & _ & _ & _ & _ & _ & _ & _ & _ & _ & ->).
  reflexivity.
Qed.

(** X17. The test block announces "Simulating a City Level Event", and the
    call it makes is one: at any clock reading it returns a report for Earth
    (the default body) with an energy between 0.66 and 0.9 Mt, the band
    "City Level Event" in yellow with its three actions, an airburst risk,
    no tsunami risk and an oval crater. *)
Theorem main_simulates_city_level_event now :
  exists r E,
    main_results now = Returned r /\
    field ["impact_body"] r = Some (VStr "Earth") /\
    field ["impact_energy_Mt"] r = Some (VFin E) /\
    0.66 < E < 0.9 /\
    field ["severity_band"] r = Some (VStr "City Level Event") /\
    field ["severity_color"] r = Some (VStr "yellow") /\
    field ["recommended_actions"] r
      = Some (VList [VStr "Shelter away from windows.";
                     VStr "Expect shockwave.";
                     VStr "Follow local authority instructions."]) /\
    field ["shockwave_effects"; "is_airburst_risk"] r = Some (VBool true) /\
    field ["tsunami_risk"] r = Some (VBool false) /\
    field ["crater_details"; "shape"] r = Some (VStr "oval").
Proof.
  unfold main_results.
  destruct (calculate_earth_positive now 20 20000 45 (Fin 55.15) (Fin 61.40)
              false) as (r & Hr & F); [unfold ordinary_sizes; lra |].
  assert (Hbody := earth_body_field _ _ _ _ _ _ _ _ Hr).
  destruct F as [_ HMt _ _ _ Hshape Hband Hcolor Hact Hair _ Hts].
  assert (HE : 0.66 < energy_Mt 20 20000 < 0.9).
  { unfold energy_Mt, energy_J. destruct PI_bounds as [Hlo Hhi]. lra. }
  rewrite severity_city in Hband, Hcolor, Hact by lra.
  rewrite Rleb_true, Rltb_true in Hair by lra.
  rewrite Rltb_true in Hshape by lra.
  exists r, (energy_Mt 20 20000). repeat split; try assumption; lra.
Qed.


(** ** Floats that are not negative *)

Lemma fround_in_range x :
  float_min_bound < Rabs x < float_max_bound -> fround x = Fin x.
Proof.
  intros [Hlo Hhi]. unfold fround, overflows, underflows.
  rewrite !Rleb_false by assumption. reflexivity.
Qed.

Lemma fround_double x z : fround x = Fin z -> is_double z.
Proof.
  unfold fround, overflows, underflows, Rleb, is_double.
  destruct (Rle_dec float_max_bound (Rabs x)); [discriminate |].
  destruct (Rle_dec (Rabs x) float_min_bound);
    intros H; injection H as <-; [left; reflexivity | right; lra].
Qed.

Lemma fround_of_double x : is_double x -> fround x = Fin x.
Proof.
  intros [-> | H]; [apply fround_zero | now apply fround_in_range].
Qed.

Lemma is_double_nonneg x :
  is_double x -> 0 <= x -> x = 0 \/ float_min_bound < x < float_max_bound.
Proof.
  intros [-> | H] Hx; [left; reflexivity | right].
  rewrite Rabs_pos_eq in H; assumption.
Qed.

Lemma fround_nonneg x : 0 <= x -> fnonneg (fround x).
Proof.
  intros Hx. unfold fround.
  destruct (overflows x); [cbn; apply Rltb_false; assumption |].
  destruct (underflows x); cbn; lra.
Qed.

Lemma fmul_nonneg a b : fnonneg a -> fnonneg b -> fnonneg (fmul a b).
Proof.
  destruct a as [x | s |], b as [y | t |]; cbn; trivial.
  - intros Hx Hy. apply fround_nonneg. apply Rmult_le_pos; assumption.
  - intros Hx ->. destruct (Reqb x 0); cbn; [trivial |].
    rewrite Rltb_false by assumption. reflexivity.
  - intros -> Hy. destruct (Reqb y 0); cbn; [trivial |].
    rewrite Rltb_false by assumption. reflexivity.
  - intros -> ->. reflexivity.
Qed.

Lemma fdiv_nonneg a c : fnonneg a -> 0 < c -> fnonneg (fdiv a (Fin c)).
Proof.
  intros Ha Hc. destruct a as [x | s |]; cbn in *; trivial.
  - rewrite Reqb_false by lra. apply fround_nonneg.
    apply Rmult_le_pos; [assumption |]. left. apply Rinv_0_lt_compat, Hc.
  - subst s. rewrite Rltb_false by lra. reflexivity.
Qed.

Lemma fmul_double a b z : fmul a b = Fin z -> is_double z.
Proof.
  destruct a as [x | s |], b as [y | t |]; cbn; try discriminate.
  - apply fround_double.
  - destruct (Reqb x 0); discriminate.
  - destruct (Reqb y 0); discriminate.
Qed.

Lemma fdiv_double a c z : c <> 0 -> fdiv a (Fin c) = Fin z -> is_double z.
Proof.
  intros Hc. destruct a as [x | s |]; cbn; try discriminate.
  rewrite Reqb_false by assumption. apply fround_double.
Qed.

(** ** The energy of a request whose diameter is not negative *)

Lemma radius_cubed_inv d r3 :
  float_pow_int (fdiv (Fin d) (Fin 2)) 3 = Returned r3 ->
  (exists s, r3 = Inf s /\ fround (d / 2) = Inf s) \/
  (overflows (d / 2) = false /\ overflows (flush (d / 2) ^ 3) = false /\
   r3 = Fin (flush (flush (d / 2) ^ 3))).
Proof.
  cbn [fdiv]. rewrite Reqb_false by lra.
  destruct (fround (d / 2)) as [x | s |] eqn:Hx.
  - apply fround_Fin_inv in Hx. destruct Hx as [Ho ->].
    rewrite float_pow_int_3. intros H. apply pow_result_inv in H.
    right. tauto.
  - cbn. intros H. injection H as <-. left. exists s. split; reflexivity.
  - now apply fround_not_NaN in Hx.
Qed.

Lemma speed_squared_inv v v2 :
  float_pow_int (Fin v) 2 = Returned v2 ->
  overflows (v ^ 2) = false /\ v2 = Fin (flush (v ^ 2)).
Proof. rewrite float_pow_int_2. apply pow_result_inv. Qed.

Lemma radius_cubed_nonneg d r3 :
  0 <= d ->
  float_pow_int (fdiv (Fin d) (Fin 2)) 3 = Returned r3 -> fnonneg r3.
Proof.
  intros Hd H. destruct (radius_cubed_inv d r3 H) as [(s & -> & Hs) | (_ & _ & ->)].
  - apply fround_Inf_inv in Hs. destruct Hs as [_ ->]. cbn.
    apply Rltb_false. lra.
  - cbn [fnonneg]. apply flush_nonneg. apply pow_le. apply flush_nonneg. lra.
Qed.

Lemma speed_squared_nonneg v v2 :
  float_pow_int (Fin v) 2 = Returned v2 -> fnonneg v2.
Proof.
  intros H. destruct (speed_squared_inv v v2 H) as [_ ->]. cbn [fnonneg].
  apply flush_nonneg. simpl. nra.
Qed.

Lemma sphere_factor : fmul (Fin (4 / 3)) math_pi = Fin (4 / 3 * PI).
Proof. unfold math_pi. apply fmul_pos. pose proof PI_bounds. lra. Qed.

Lemma kinetic_energy_nonneg r3 v2 :
  fnonneg r3 -> fnonneg v2 -> fnonneg (kinetic_energy_of r3 v2).
Proof.
  intros H3 H2. unfold kinetic_energy_of, ASTEROID_DENSITY_KGM3.
  rewrite sphere_factor. pose proof PI_bounds.
  repeat first [assumption | apply fmul_nonneg | (cbn; lra)].
Qed.

(** A finite kinetic energy is the product of the formula, each step
    followed by its underflow. *)
Lemma kinetic_energy_finite d v r3 v2 j :
  float_pow_int (fdiv (Fin d) (Fin 2)) 3 = Returned r3 ->
  float_pow_int (Fin v) 2 = Returned v2 ->
  kinetic_energy_of r3 v2 = Fin j ->
  j = flushed_energy_J d v.
Proof.
  intros H3 H2 HJ. unfold kinetic_energy_of, ASTEROID_DENSITY_KGM3 in HJ.
  rewrite sphere_factor in HJ.
  apply fmul_Fin_inv in HJ. destruct HJ as (h & s & Hh & -> & _ & ->).
  apply fmul_Fin_inv in Hh. destruct Hh as (c & m & Hc & Hm & _ & ->).
  injection Hc as <-.
  apply fmul_Fin_inv in Hm. destruct Hm as (k & vo & Hk & Hvo & _ & ->).
  injection Hk as <-.
  apply fmul_Fin_inv in Hvo. destruct Hvo as (p & cu & Hp & -> & _ & ->).
  injection Hp as <-.
  destruct (speed_squared_inv v _ H2) as [_ Hs]. injection Hs as ->.
  destruct (radius_cubed_inv d _ H3) as [(? & ? & _) | (_ & _ & Hcu)];
    [discriminate |].
  injection Hcu as ->. reflexivity.
Qed.


(** An energy that has not underflowed is the energy of the formula. *)
Lemma flush_product_nonzero x y :
  flush (x * y) <> 0 -> flush (x * y) = x * y /\ x <> 0 /\ y <> 0.
Proof.
  intros H. pose proof (flush_nonzero _ H) as Heq. rewrite Heq in H.
  repeat split; [assumption | |]; intros ->; apply H; ring.
Qed.

Lemma flushed_energy_J_cases d v :
  flushed_energy_J d v = energy_J d v \/ flushed_energy_J d v = 0.
Proof.
  destruct (Req_dec_T (flushed_energy_J d v) 0) as [H0 | H0]; [now right | left].
  unfold flushed_energy_J in *.
  apply flush_product_nonzero in H0. destruct H0 as (-> & Hh & Hs).
  rewrite (flush_nonzero _ Hs).
  apply flush_product_nonzero in Hh. destruct Hh as (-> & _ & Hm).
  apply flush_product_nonzero in Hm. destruct Hm as (-> & _ & Hvo).
  apply flush_product_nonzero in Hvo. destruct Hvo as (-> & _ & Hcu).
  pose proof (flush_nonzero _ Hcu) as Hcu'. rewrite Hcu'.
  rewrite Hcu' in Hcu.
  assert (Hr : flush (d / 2) <> 0).
  { intros Hr. apply Hcu. rewrite Hr. ring. }
  rewrite (flush_nonzero _ Hr). apply energy_J_code.
Qed.

Lemma flushed_energy_Mt_cases d v :
  flushed_energy_Mt d v = energy_Mt d v \/ flushed_energy_Mt d v = 0.
Proof.
  unfold flushed_energy_Mt.
  destruct (flush_cases (flushed_energy_J d v / 4.184e15)) as [H | H];
    [| now right].
  rewrite H. destruct (flushed_energy_J_cases d v) as [-> | ->].
  - now left.
  - right. unfold Rdiv. ring.
Qed.

Lemma flushed_energy_J_nonneg d v : 0 <= d -> 0 <= flushed_energy_J d v.
Proof.
  intros Hd. pose proof PI_bounds. unfold flushed_energy_J.
  assert (Hr : 0 <= flush (d / 2)) by (apply flush_nonneg; lra).
  assert (Hc : 0 <= flush (flush (d / 2) ^ 3))
    by (apply flush_nonneg, pow_le; assumption).
  assert (Hs : 0 <= flush (v ^ 2)) by (apply flush_nonneg; simpl; nra).
  set (c := flush (flush (d / 2) ^ 3)) in *.
  assert (Hvo : 0 <= flush (4 / 3 * PI * c)) by (apply flush_nonneg; nra).
  set (o := flush (4 / 3 * PI * c)) in *.
  assert (Hm : 0 <= flush (3500 * o)) by (apply flush_nonneg; lra).
  set (m := flush (3500 * o)) in *.
  assert (Hh : 0 <= flush (0.5 * m)) by (apply flush_nonneg; lra).
  apply flush_nonneg. apply Rmult_le_pos; assumption.
Qed.

Lemma flushed_energy_Mt_nonneg d v : 0 <= d -> 0 <= flushed_energy_Mt d v.
Proof.
  intros Hd. unfold flushed_energy_Mt. apply flush_nonneg.
  pose proof (flushed_energy_J_nonneg d v Hd). unfold Rdiv.
  apply Rmult_le_pos; lra.
Qed.

(** The energy never decreases when a size grows. *)
Lemma flushed_energy_J_monotone d1 d2 v1 v2 :
  0 <= d1 <= d2 -> 0 <= v1 <= v2 ->
  flushed_energy_J d1 v1 <= flushed_energy_J d2 v2.
Proof.
  intros Hd Hv. pose proof PI_bounds. unfold flushed_energy_J.
  assert (Hr : 0 <= flush (d1 / 2) <= flush (d2 / 2)).
  { split; [apply flush_nonneg; lra | apply flush_monotone; lra]. }
  assert (Hc : 0 <= flush (flush (d1 / 2) ^ 3) <= flush (flush (d2 / 2) ^ 3)).
  { split; [apply flush_nonneg, pow_le; lra |].
    apply flush_monotone, pow_incr. assumption. }
  assert (Hs : 0 <= flush (v1 ^ 2) <= flush (v2 ^ 2)).
  { split; [apply flush_nonneg, pow_le; lra |].
    apply flush_monotone, pow_incr. assumption. }
  set (c1 := flush (flush (d1 / 2) ^ 3)) in *.
  set (c2 := flush (flush (d2 / 2) ^ 3)) in *.
  assert (Hvo : 0 <= flush (4 / 3 * PI * c1) <= flush (4 / 3 * PI * c2)).
  { split; [apply flush_nonneg; nra | apply flush_monotone; nra]. }
  set (o1 := flush (4 / 3 * PI * c1)) in *.
  set (o2 := flush (4 / 3 * PI * c2)) in *.
  assert (Hm : 0 <= flush (3500 * o1) <= flush (3500 * o2)).
  { split; [apply flush_nonneg; lra | apply flush_monotone; lra]. }
  set (m1 := flush (3500 * o1)) in *.
  set (m2 := flush (3500 * o2)) in *.
  assert (Hh : 0 <= flush (0.5 * m1) <= flush (0.5 * m2)).
  { split; [apply flush_nonneg; lra | apply flush_monotone; lra]. }
  apply flush_monotone. apply Rmult_le_compat; lra.
Qed.

Lemma flushed_energy_Mt_monotone d1 d2 v1 v2 :
  0 <= d1 <= d2 -> 0 <= v1 <= v2 ->
  flushed_energy_Mt d1 v1 <= flushed_energy_Mt d2 v2.
Proof.
  intros Hd Hv. unfold flushed_energy_Mt. apply flush_monotone.
  pose proof (flushed_energy_J_monotone d1 d2 v1 v2 Hd Hv). lra.
Qed.

(** ** The crater of a request whose diameter is not negative *)

Lemma is_odd_integer_third : is_odd_integer (1 / 3) = false.
Proof. unfold is_odd_integer. now rewrite is_integer_third. Qed.

Lemma root_of_energy E :
  fnonneg E -> (forall e, E = Fin e -> is_double e) ->
  float_pow E (1 / 3) = Returned (Float (root_of E)).
Proof.
  intros Hn Hd. destruct E as [e | s |].
  - destruct (is_double_nonneg e (Hd e eq_refl) Hn) as [-> | He].
    + unfold float_pow, root_of.
      rewrite (Reqb_false (1 / 3) 0) by lra.
      rewrite Reqb_true by reflexivity. rewrite Rltb_false by lra.
      reflexivity.
    + pose proof float_min_pos. unfold root_of.
      rewrite (Reqb_false e 0) by lra. now apply float_pow_pos_range.
  - unfold float_pow, root_of.
    rewrite (Reqb_false (1 / 3) 0) by lra.
    rewrite Rltb_true by lra. rewrite is_odd_integer_third. reflexivity.
  - unfold float_pow. rewrite (Reqb_false (1 / 3) 0) by lra. reflexivity.
Qed.

Lemma short_of_positive e :
  float_min_bound < e < float_max_bound ->
  short_of (Fin e) = Fin (90 * Rpower e (1 / 3)).
Proof.
  intros He. pose proof float_min_pos as Hm.
  pose proof (root_in_range e He) as [Hlo Hhi].
  unfold short_of, root_of. rewrite (Reqb_false e 0) by lra.
  cbn [fmul]. apply fround_in_range.
  pose proof float_max_lower. rewrite Rabs_pos_eq; lra.
Qed.

Lemma short_of_zero : short_of (Fin 0) = Fin 0.
Proof.
  unfold short_of, root_of. rewrite Reqb_true by reflexivity.
  apply fmul_zero_r.
Qed.

Lemma short_of_inf s : short_of (Inf s) = Inf false.
Proof.
  unfold short_of, root_of. cbn [fmul].
  rewrite Reqb_false by lra. rewrite Rltb_false by lra. reflexivity.
Qed.

(** The short axis of an energy that is not negative: [inf], NaN, or a
    finite length that is zero or 90 times the cube root. *)
Lemma short_of_finite E s :
  fnonneg E -> (forall e, E = Fin e -> is_double e) ->
  short_of E = Fin s ->
  0 <= s /\ is_double s /\
  exists e, E = Fin e /\
            ((e = 0 /\ s = 0) \/ (0 < e /\ s = 90 * Rpower e (1 / 3))).
Proof.
  intros Hn Hd Hs. destruct E as [e | t |].
  - destruct (is_double_nonneg e (Hd e eq_refl) Hn) as [-> | He].
    + rewrite short_of_zero in Hs. injection Hs as <-.
      split; [lra |]. split; [now left |].
      exists 0. split; [reflexivity | left; split; reflexivity].
    + pose proof float_min_pos as Hm.
      pose proof (fmul_double _ _ _ Hs) as Hdbl.
      rewrite short_of_positive in Hs by assumption. injection Hs as <-.
      pose proof (root_pos e).
      split; [lra |]. split; [assumption |].
      exists e. split; [reflexivity | right; split; [lra | reflexivity]].
  - rewrite short_of_inf in Hs. discriminate.
  - discriminate.
Qed.

Lemma short_of_nonneg E : fnonneg E -> fnonneg (short_of E).
Proof.
  intros Hn. unfold short_of. apply fmul_nonneg; [cbn; lra |].
  destruct E as [e | s |]; cbn; trivial.
  destruct (Reqb e 0); cbn; [lra |]. left. apply root_pos.
Qed.

(** The sine of a valid angle, as the program computes it: a float in
    [0, 1], which is the sine of the angle unless it has underflowed. *)
Lemma valid_sine a :
  0 < a <= 90 ->
  exists sigma,
    np_sin_value (np_radians (Fin a)) = Fin sigma /\
    0 <= sigma <= 1 /\
    (sigma <> 0 -> sigma = sin (a * (PI / 180))).
Proof.
  intros Ha. destruct (radians_range a Ha) as [Hlo Hhi].
  pose proof PI_bounds as Hpi.
  unfold np_radians. cbn [fmul].
  rewrite fround_flush
    by (apply overflows_false; rewrite Rabs_pos_eq; lra).
  cbn [np_sin_value].
  set (rho := flush (a * (PI / 180))).
  assert (Hrho : 0 <= rho <= PI / 2).
  { unfold rho. destruct (flush_cases (a * (PI / 180))) as [-> | ->]; lra. }
  assert (Hsin : 0 <= sin rho <= 1).
  { split; [apply sin_ge_0; lra | apply SIN_bound]. }
  rewrite fround_flush
    by (apply overflows_false; rewrite Rabs_pos_eq; lra).
  exists (flush (sin rho)). split; [reflexivity |]. split.
  - destruct (flush_cases (sin rho)) as [-> | ->]; lra.
  - intros Hnz. rewrite (flush_nonzero _ Hnz).
    rewrite (flush_nonzero _ Hnz) in Hnz.
    assert (Hr : rho <> 0) by (intros Hr; apply Hnz; rewrite Hr; apply sin_0).
    unfold rho in *. now rewrite (flush_nonzero _ Hr).
Qed.

(** A finite long axis is the short axis over the sine of the angle. *)
Lemma long_axis_finite a s l :
  0 < a <= 90 -> is_double s ->
  fdiv (Fin s) (np_sin_value (np_radians (Fin a))) = Fin l ->
  l = s / sin (a * (PI / 180)).
Proof.
  intros Ha Hs Hl.
  destruct (valid_sine a Ha) as (sigma & Hsig & [Hs0 Hs1] & Hval).
  rewrite Hsig in Hl. cbn [fdiv] in Hl.
  destruct (Req_dec_T sigma 0) as [H0 | H0].
  - rewrite (Reqb_true sigma 0) in Hl by assumption.
    destruct (Reqb s 0); discriminate.
  - rewrite (Reqb_false sigma 0) in Hl by assumption.
    apply fround_Fin_inv in Hl. destruct Hl as [_ ->].
    rewrite <- (Hval H0).
    destruct Hs as [-> | Hs].
    + replace (0 / sigma) with 0 by (unfold Rdiv; ring). apply flush_zero.
    + unfold flush, underflows. rewrite Rleb_false; [reflexivity |].
      unfold Rdiv. rewrite Rabs_mult.
      rewrite (Rabs_pos_eq (/ sigma))
        by (left; apply Rinv_0_lt_compat; lra).
      assert (1 <= / sigma).
      { rewrite <- Rinv_1. apply Rinv_le_contravar; lra. }
      pose proof float_min_pos. pose proof (Rabs_pos s).
      apply Rlt_le_trans with (Rabs s * 1); [lra |].
      apply Rmult_le_compat_l; assumption.
Qed.



(** At 90 degrees the sine is 1 and the division returns the short
    axis. *)
Lemma vertical_sine : np_sin_value (np_radians (Fin 90)) = Fin 1.
Proof.
  pose proof PI_bounds as Hpi.
  unfold np_radians. rewrite fmul_pos by lra.
  cbn [np_sin_value]. rewrite sin_right_angle. apply fround_pos. lra.
Qed.

Lemma fdiv_one x :
  (forall s, x = Fin s -> is_double s) -> fdiv x (Fin 1) = x.
Proof.
  intros Hd. destruct x as [s | t |]; cbn.
  - rewrite Reqb_false by lra. replace (s / 1) with s by field.
    apply fround_of_double. now apply Hd.
  - rewrite Rltb_false by lra. now rewrite xorb_false_r.
  - reflexivity.
Qed.

(** What a call for Earth returns when the diameter is a real number that
    is not negative: the energy is not negative, and the crater is made of
    floats (no complex number arises). *)
Lemma valid_report env now d v a lat lon w r :
  0 <= d ->
  calculate_impact_effects_under env now (Fin d) (Fin v) a lat lon
      "Earth" w = Returned r ->
  exists J E,
    E = fdiv J JOULES_PER_MEGATON_TNT /\
    fnonneg J /\ fnonneg E /\
    (forall j, J = Fin j -> j = flushed_energy_J d v) /\
    (forall e, E = Fin e -> e = flushed_energy_Mt d v /\ is_double e) /\
    r = earth_report now lat lon w a J E
          (Float (fdiv (short_of E) (np_sin_value (np_radians a))))
          (Float (short_of E))
          (Float (fdiv (fmul (Fin 3)
                          (fdiv (short_of E) (np_sin_value (np_radians a))))
                       (Fin 1000)))
          (if fle (Fin 0.1) E && flt E (Fin 1000)
           then VNum (Float (fmul (Fin 30) (root_of E))) else VInt 0).
Proof.
  intros Hd Hr.
  destruct (calculate_earth_inversion_under _ _ _ _ _ _ _ _ _ Hr)
    as (r3 & v2 & root & sine & long & tripled & prec & J & E
        & H3 & H2 & HJ & HE & Hroot & Hsine & Hlong & Htripled & Hprec & ->).
  assert (HJn : fnonneg J).
  { rewrite HJ. apply kinetic_energy_nonneg.
    - now apply (radius_cubed_nonneg d).
    - now apply (speed_squared_nonneg v). }
  assert (HEn : fnonneg E).
  { rewrite HE. unfold JOULES_PER_MEGATON_TNT. apply fdiv_nonneg; [assumption | lra]. }
  assert (HJf : forall j, J = Fin j -> j = flushed_energy_J d v).
  { intros j Hj. rewrite HJ in Hj. now apply (kinetic_energy_finite d v r3 v2). }
  assert (HEf : forall e, E = Fin e -> e = flushed_energy_Mt d v /\ is_double e).
  { intros e He. split.
    - rewrite HE in He. unfold JOULES_PER_MEGATON_TNT in He.
      pose proof He as He'.
      apply fdiv_Fin_inv in He'; [| lra]. destruct He' as (j & Hj & _ & ->).
      unfold flushed_energy_Mt. now rewrite <- (HJf j Hj).
    - rewrite HE in He. unfold JOULES_PER_MEGATON_TNT in He.
      apply fdiv_double in He; [assumption | lra]. }
  rewrite (root_of_energy E HEn (fun e He => proj2 (HEf e He))) in Hroot.
  injection Hroot as <-.
  unfold np_sin in Hsine. apply np_result_inv in Hsine. subst sine.
  change (num_mul (Float (Fin 90)) (Float (root_of E)))
    with (Float (short_of E)) in *.
  cbn [num_truediv] in Hlong. apply np_result_inv in Hlong. subst long.
  cbn [np_mul] in Htripled. apply np_result_inv in Htripled. subst tripled.
  cbn [num_truediv] in Hprec. apply np_result_inv in Hprec. subst prec.
  exists J, E. repeat split; try assumption; apply HEf; assumption.
Qed.

(** ** Growth with the sizes *)

Lemma overflows_monotone x y :
  0 <= x <= y -> overflows y = false -> overflows x = false.
Proof.
  unfold overflows, Rleb. intros [H0 Hxy].
  rewrite !Rabs_pos_eq by lra.
  destruct (Rle_dec float_max_bound y); [discriminate |].
  destruct (Rle_dec float_max_bound x); [lra | reflexivity].
Qed.

Lemma fround_top x y : 0 <= x <= y -> fle_top (fround x) (fround y).
Proof.
  intros Hxy. destruct (overflows y) eqn:Hy.
  - unfold fround at 2. rewrite Hy. exact I.
  - rewrite (fround_flush y Hy).
    rewrite (fround_flush x (overflows_monotone x y Hxy Hy)).
    cbn. apply flush_monotone. lra.
Qed.

Lemma fmul_top a b c d :
  fnonneg a -> fnonneg c -> fle_top a b -> fle_top c d ->
  fle_top (fmul a c) (fmul b d).
Proof.
  intros Ha Hc Hab Hcd.
  destruct b as [y | s |], d as [t | u |]; cbn [fmul];
    try exact I;
    try (destruct (Reqb y 0); exact I);
    try (destruct (Reqb t 0); exact I).
  destruct a as [x | |]; [| contradiction | contradiction].
  destruct c as [z | |]; [| contradiction | contradiction].
  cbn in Ha, Hc, Hab, Hcd. cbn [fmul]. apply fround_top. split.
  - apply Rmult_le_pos; assumption.
  - apply Rmult_le_compat; assumption.
Qed.

Lemma fdiv_top a b c :
  0 < c -> fnonneg a -> fle_top a b ->
  fle_top (fdiv a (Fin c)) (fdiv b (Fin c)).
Proof.
  intros Hc Ha Hab.
  destruct b as [y | s |]; cbn [fdiv]; try exact I.
  destruct a as [x | |]; [| contradiction | contradiction].
  cbn in Ha, Hab. cbn [fdiv]. rewrite Reqb_false by lra.
  assert (Hi : 0 < / c) by now apply Rinv_0_lt_compat.
  apply fround_top. unfold Rdiv. split.
  - apply Rmult_le_pos; lra.
  - apply Rmult_le_compat_r; lra.
Qed.

Lemma fle_top_refl a : fle_top a a.
Proof. destruct a; cbn; trivial. lra. Qed.

Lemma radius_cubed_top d1 d2 r1 r2 :
  0 <= d1 <= d2 ->
  float_pow_int (fdiv (Fin d1) (Fin 2)) 3 = Returned r1 ->
  float_pow_int (fdiv (Fin d2) (Fin 2)) 3 = Returned r2 ->
  fle_top r1 r2.
Proof.
  intros Hd H1 H2.
  destruct (radius_cubed_inv d2 r2 H2) as [(s & -> & _) | (Ho2 & _ & ->)];
    [exact I |].
  destruct (radius_cubed_inv d1 r1 H1) as [(s & -> & Hs) | (Ho1 & _ & ->)].
  - apply fround_Inf_inv in Hs. destruct Hs as [Hs _].
    rewrite (overflows_monotone (d1 / 2) (d2 / 2)) in Hs;
      [discriminate | lra | assumption].
  - cbn [fle_top]. apply flush_monotone, pow_incr. split.
    + apply flush_nonneg. lra.
    + apply flush_monotone. lra.
Qed.

Lemma speed_squared_top v1 v2 s1 s2 :
  0 <= v1 <= v2 ->
  float_pow_int (Fin v1) 2 = Returned s1 ->
  float_pow_int (Fin v2) 2 = Returned s2 ->
  fle_top s1 s2.
Proof.
  intros Hv H1 H2.
  destruct (speed_squared_inv v1 s1 H1) as [_ ->].
  destruct (speed_squared_inv v2 s2 H2) as [_ ->].
  cbn [fle_top]. apply flush_monotone, pow_incr. assumption.
Qed.

Lemma kinetic_energy_top r1 r2 s1 s2 :
  fnonneg r1 -> fnonneg s1 -> fle_top r1 r2 -> fle_top s1 s2 ->
  fle_top (kinetic_energy_of r1 s1) (kinetic_energy_of r2 s2).
Proof.
  intros Hr Hs Hr12 Hs12. pose proof PI_bounds.
  unfold kinetic_energy_of, ASTEROID_DENSITY_KGM3. rewrite sphere_factor.
  assert (Hc : fnonneg (Fin (4 / 3 * PI))) by (cbn; lra).
  assert (Hk : fnonneg (Fin 3500)) by (cbn; lra).
  assert (Hh : fnonneg (Fin 0.5)) by (cbn; lra).
  apply fmul_top; [| assumption | | assumption].
  - repeat (apply fmul_nonneg; try assumption).
  - apply fmul_top; [assumption | | apply fle_top_refl |].
    + repeat (apply fmul_nonneg; try assumption).
    + apply fmul_top; [assumption | | apply fle_top_refl |].
      * repeat (apply fmul_nonneg; try assumption).
      * apply fmul_top; [assumption | assumption | apply fle_top_refl |].
        assumption.
Qed.

Lemma band_index_bound E :
  (band_index (band (get_severity_details E)) <= 3)%nat.
Proof.
  unfold get_severity_details.
  destruct (flt E (Fin 0.1)); [cbn; lia |].
  destruct (flt E (Fin 10)); [cbn; lia |].
  destruct (flt E (Fin 1000)); cbn; lia.
Qed.

Lemma band_top E1 E2 :
  fnonneg E2 -> fle_top E1 E2 ->
  (band_index (band (get_severity_details E1))
   <= band_index (band (get_severity_details E2)))%nat.
Proof.
  intros Hn H12. destruct E2 as [y | s |].
  - destruct E1 as [x | |]; [| contradiction | contradiction].
    apply band_index_monotone. exact H12.
  - cbn in Hn. subst s.
    change (band_index (band (get_severity_details (Inf false)))) with 3%nat.
    apply band_index_bound.
  - change (band_index (band (get_severity_details NaN))) with 3%nat.
    apply band_index_bound.
Qed.

(** ** Valid requests for Earth *)

Section ValidRequest.

Variables (now : string) (d v a : R) (lat lon : float) (w : bool) (r : dict).
Hypothesis valid : valid_request d v a.
Hypothesis returned :
  calculate_impact_effects now (Fin d) (Fin v) (Fin a) lat lon "Earth" w
    = Returned r.

Lemma valid_request_report :
  exists J E,
    E = fdiv J JOULES_PER_MEGATON_TNT /\
    fnonneg J /\ fnonneg E /\
    (forall j, J = Fin j -> j = flushed_energy_J d v) /\
    (forall e, E = Fin e -> e = flushed_energy_Mt d v /\ is_double e) /\
    r = earth_report now lat lon w (Fin a) J E
          (Float (fdiv (short_of E) (np_sin_value (np_radians (Fin a)))))
          (Float (short_of E))
          (Float (fdiv (fmul (Fin 3)
                          (fdiv (short_of E)
                                (np_sin_value (np_radians (Fin a)))))
                       (Fin 1000)))
          (if fle (Fin 0.1) E && flt E (Fin 1000)
           then VNum (Float (fmul (Fin 30) (root_of E))) else VInt 0).
Proof.
  apply (valid_report default_environment); [| exact returned].
  destruct valid as [Hd _]. lra.
Qed.



(** C6, as the program has it.  For every valid request for Earth, in the
    report that the call returns: finite axes satisfy 0 <= short <= long,
    and at 90 degrees the long axis is the short axis.  (The two are also
    equal at other angles: when the energy has underflowed to zero both are
    zero.) *)
Theorem crater_long_ge_short :
  exists short long : float,
    field ["crater_details"; "short_axis_m_est"] r
      = Some (VNum (Float short)) /\
    field ["crater_details"; "long_axis_m_est"] r
      = Some (VNum (Float long)) /\
    (forall s l, short = Fin s -> long = Fin l -> 0 <= s <= l) /\
    (a = 90 -> long = short).
Proof.
  destruct valid_request_report
    as (J & E & HE & HJn & HEn & HJf & HEf & ->).
  destruct valid as (_ & _ & Ha).
  exists (short_of E),
    (fdiv (short_of E) (np_sin_value (np_radians (Fin a)))).
  split; [reflexivity |]. split; [reflexivity |]. split.
  - intros s l Hs Hl.
    destruct (short_of_finite E s HEn (fun e He => proj2 (HEf e He)) Hs)
      as (Hs0 & Hsd & _).
    rewrite Hs in Hl.
    rewrite (long_axis_finite a s l Ha Hsd Hl).
    destruct (sin_angle_range a Ha) as [Hlo Hhi].
    split; [assumption |].
    apply Rmult_le_reg_r with (sin (a * (PI / 180))); [assumption |].
    unfold Rdiv. rewrite Rmult_assoc, Rinv_l by lra. nra.
  - intros ->. rewrite vertical_sine. apply fdiv_one.
    intros s Hs. apply (fmul_double _ _ _ Hs).
Qed.

(** C7. For every request for Earth with finite sizes and angle, a valid
    one in particular, in the report that the call returns,
    [is_airburst_risk] is true if and only if the energy in megatons is a
    number with 0.1 <= energy < 1000; when it is true the damage radius is
    30 times the cube root of the energy, and when it is false the damage
    radius is the integer 0. *)
Theorem airburst_shockwave :
  exists (E : float) (airburst : bool),
    field ["impact_energy_Mt"] r = Some (VNum (Float E)) /\
    field ["shockwave_effects"; "is_airburst_risk"] r
      = Some (VBool airburst) /\
    (airburst = true <-> exists e, E = Fin e /\ 0.1 <= e < 1000) /\
    (forall e, airburst = true -> E = Fin e ->
       field ["shockwave_effects"; "damage_radius_km_est"] r
         = Some (VFin (30 * Rpower e (1 / 3)))) /\
    (airburst = false ->
     field ["shockwave_effects"; "damage_radius_km_est"] r = Some (VInt 0)).
Proof.
  destruct (calculate_earth_inversion _ _ _ _ _ _ _ _ returned)
    as (r3 & v2 & root & sine & long & tripled & prec & J & E
        & _ & _ & _ & _ & Hroot & _ & _ & _ & _ & ->).
  exists E, (fle (Fin 0.1) E && flt E (Fin 1000)).
  split; [reflexivity |]. split; [reflexivity |]. split; [| split].
  - split.
    + intros Hair.
      destruct (airburst_root E root Hair Hroot) as (e & -> & He & _).
      exists e. split; [reflexivity | assumption].
    + intros (e & -> & He). cbn [fle flt].
      rewrite Rleb_true, Rltb_true by lra. reflexivity.
  - intros e Hair He.
    destruct (airburst_root E root Hair Hroot) as (e' & He' & _ & _ & H30).
    rewrite He in He'. injection He' as <-.
    unfold field, earth_report.
    cbn [dict_path dict_get String.eqb Ascii.eqb Bool.eqb].
    rewrite Hair, H30. reflexivity.
  - intros Hair. unfold field, earth_report.
    cbn [dict_path dict_get String.eqb Ascii.eqb Bool.eqb].
    rewrite Hair. reflexivity.
Qed.

(** C8. For every valid request for Earth, in the report that the call
    returns, [tsunami_risk] is true if and only if [impact_in_water] is true
    and the energy in megatons is above 1: a number greater than 1, or
    [inf]. *)
Theorem tsunami_flag :
  exists (E : float) (tsunami : bool),
    field ["impact_energy_Mt"] r = Some (VNum (Float E)) /\
    field ["tsunami_risk"] r = Some (VBool tsunami) /\
    (tsunami = true <->
     w = true /\ ((exists e, E = Fin e /\ 1 < e) \/ E = Inf false)).
Proof.
  destruct valid_request_report
    as (J & E & HE & HJn & HEn & HJf & HEf & ->).
  exists E, (w && fgt E (Fin 1)).
  split; [reflexivity |]. split; [reflexivity |].
  rewrite andb_true_iff. unfold fgt.
  split; intros [Hw HE1]; (split; [assumption |]).
  - destruct E as [e | s |]; cbn [flt] in HE1.
    + left. exists e. split; [reflexivity | now apply Rltb_spec].
    + right. cbn in HEn. now subst s.
    + discriminate.
  - destruct HE1 as [(e & -> & He) | ->]; cbn [flt].
    + now apply Rltb_spec.
    + reflexivity.
Qed.

End ValidRequest.



(** A vertical impact: the two axes are the same. *)
Lemma crater_long_ge_short_vertical :
  exists r (short long : float),
    calculate_impact_effects "2025-10-04T09:30:00" (Fin 20) (Fin 20000)
        (Fin 90) (Fin 55.15) (Fin 61.40) "Earth" false
      = Returned r /\
    field ["crater_details"; "short_axis_m_est"] r
      = Some (VNum (Float short)) /\
    field ["crater_details"; "long_axis_m_est"] r
      = Some (VNum (Float long)) /\
    (forall s l, short = Fin s -> long = Fin l -> 0 <= s <= l) /\
    (90 = 90 -> long = short).
Proof.
  destruct (calculate_earth_positive "2025-10-04T09:30:00" 20 20000 90
              (Fin 55.15) (Fin 61.40) false) as (r & Hr & _);
    [unfold ordinary_sizes; lra |].
  destruct (crater_long_ge_short "2025-10-04T09:30:00" 20 20000 90
              (Fin 55.15) (Fin 61.40) false r) as (short & long & H);
    [unfold valid_request; lra | exact Hr |].
  exists r, short, long. split; [exact Hr | exact H].
Defined.

(** The request of the test block again: an airburst. *)
Lemma airburst_shockwave_chelyabinsk :
  exists r (E : float) (airburst : bool),
    calculate_impact_effects "2025-10-04T09:30:00" (Fin 20) (Fin 20000)
        (Fin 45) (Fin 55.15) (Fin 61.40) "Earth" false
      = Returned r /\
    field ["impact_energy_Mt"] r = Some (VNum (Float E)) /\
    field ["shockwave_effects"; "is_airburst_risk"] r
      = Some (VBool airburst) /\
    (airburst = true <-> exists e, E = Fin e /\ 0.1 <= e < 1000) /\
    (forall e, airburst = true -> E = Fin e ->
       field ["shockwave_effects"; "damage_radius_km_est"] r
         = Some (VFin (30 * Rpower e (1 / 3)))) /\
    (airburst = false ->
     field ["shockwave_effects"; "damage_radius_km_est"] r = Some (VInt 0)).
Proof.
  destruct (calculate_earth_positive "2025-10-04T09:30:00" 20 20000 45
              (Fin 55.15) (Fin 61.40) false) as (r & Hr & _);
    [unfold ordinary_sizes; lra |].
  destruct (airburst_shockwave "2025-10-04T09:30:00" 20 20000 45
              (Fin 55.15) (Fin 61.40) false r Hr) as (E & airburst & H).
  exists r, E, airburst. split; [exact Hr | exact H].
Defined.

(** A 200 m body in the ocean. *)
Lemma tsunami_flag_ocean :
  exists r (E : float) (tsunami : bool),
    calculate_impact_effects "2025-10-04T09:30:00" (Fin 200) (Fin 20000)
        (Fin 45) (Fin 30) (Fin (-40)) "Earth" true
      = Returned r /\
    field ["impact_energy_Mt"] r = Some (VNum (Float E)) /\
    field ["tsunami_risk"] r = Some (VBool tsunami) /\
    (tsunami = true <->
     true = true /\ ((exists e, E = Fin e /\ 1 < e) \/ E = Inf false)).
Proof.
  destruct (calculate_earth_positive "2025-10-04T09:30:00" 200 20000 45
              (Fin 30) (Fin (-40)) true) as (r & Hr & _);
    [unfold ordinary_sizes; lra |].
  destruct (tsunami_flag "2025-10-04T09:30:00" 200 20000 45
              (Fin 30) (Fin (-40)) true r) as (E & tsunami & H);
    [unfold valid_request; lra | exact Hr |].
  exists r, E, tsunami. split; [exact Hr | exact H].
Defined.

(** ** Sizes that underflow *)

Lemma fmul_zero_l y : fmul (Fin 0) (Fin y) = Fin 0.
Proof. cbn. rewrite Rmult_0_l. apply fround_zero. Qed.

Lemma float_pow_zero : float_pow (Fin 0) (1 / 3) = Returned (Float (Fin 0)).
Proof.
  unfold float_pow. rewrite (Reqb_false (1 / 3) 0) by lra.
  rewrite Reqb_true by reflexivity. rewrite Rltb_false by lra. reflexivity.
Qed.

(** A call whose kinetic energy is zero, in the default environment. *)
Lemma zero_energy_report now d v a lat lon w r3 v2 :
  float_pow_int (fdiv d (Fin 2)) 3 = Returned r3 ->
  float_pow_int v 2 = Returned v2 ->
  kinetic_energy_of r3 v2 = Fin 0 ->
  calculate_impact_effects now d v a lat lon "Earth" w
    = Returned
        (earth_report now lat lon w a (Fin 0) (Fin 0)
           (Float (fdiv (Fin 0) (np_sin_value (np_radians a))))
           (Float (Fin 0))
           (Float (fdiv (fmul (Fin 3)
                           (fdiv (Fin 0) (np_sin_value (np_radians a))))
                        (Fin 1000)))
           (VInt 0)).
Proof.
  intros H3 H2 HJ. unfold calculate_impact_effects.
  assert (HE : fdiv (kinetic_energy_of r3 v2) JOULES_PER_MEGATON_TNT = Fin 0).
  { rewrite HJ. unfold JOULES_PER_MEGATON_TNT. apply fdiv_zero_l. lra. }
  rewrite (calculate_earth_steps default_environment now d v a lat lon w
             r3 v2 (Float (Fin 0)) (np_sin_value (np_radians a))
             (Float (fdiv (Fin 0) (np_sin_value (np_radians a))))
             (Float (fmul (Fin 3)
                       (fdiv (Fin 0) (np_sin_value (np_radians a)))))
             (Float (fdiv (fmul (Fin 3)
                             (fdiv (Fin 0) (np_sin_value (np_radians a))))
                          (Fin 1000)))).
  - rewrite HE, HJ. cbn [num_mul]. rewrite fmul_zero_r.
    cbn [fle flt]. rewrite Rleb_false by lra. reflexivity.
  - assumption.
  - assumption.
  - rewrite HE. apply float_pow_zero.
  - apply np_sin_default.
  - cbn [num_mul]. rewrite fmul_zero_r. apply num_truediv_default.
  - apply np_mul_default.
  - apply num_truediv_default.
Qed.

Lemma flush_tiny x : Rabs x <= float_min_bound -> flush x = 0.
Proof. intros H. unfold flush, underflows. now rewrite Rleb_true. Qed.

(** The cube of a radius of at most 5e-111 m underflows. *)
Lemma tiny_radius_cubed d :
  0 <= d <= 1e-110 ->
  float_pow_int (fdiv (Fin d) (Fin 2)) 3 = Returned (Fin 0).
Proof.
  intros Hd. cbn [fdiv]. rewrite Reqb_false by lra.
  rewrite fround_flush by (apply overflows_false; rewrite Rabs_pos_eq; lra).
  rewrite float_pow_int_3.
  assert (Hr : 0 <= flush (d / 2) <= 1e-110 / 2).
  { split; [apply flush_nonneg; lra |].
    apply Rle_trans with (d / 2); [apply flush_le; lra | lra]. }
  assert (Hc : 0 <= flush (d / 2) ^ 3 <= (1e-110 / 2) ^ 3).
  { split; [apply pow_le; lra | apply pow_incr; assumption]. }
  rewrite pow_result_flush
    by (apply overflows_false; rewrite Rabs_pos_eq; lra).
  rewrite flush_tiny; [reflexivity |].
  rewrite Rabs_pos_eq by lra.
  assert (1e-330 < float_min_bound)
    by (unfold float_min_bound, float_min_Z; lra).
  lra.
Qed.

Lemma zero_mass_energy s : kinetic_energy_of (Fin 0) (Fin s) = Fin 0.
Proof.
  unfold kinetic_energy_of, ASTEROID_DENSITY_KGM3.
  rewrite sphere_factor. rewrite !fmul_zero_r. apply fmul_zero_l.
Qed.

(** The sine of an angle that is not minute. *)
Lemma ordinary_sine a :
  1e-30 <= a <= 90 ->
  np_radians (Fin a) = Fin (a * (PI / 180)) /\
  np_sin_value (np_radians (Fin a)) = Fin (sin (a * (PI / 180))) /\
  5e-33 <= sin (a * (PI / 180)) <= 1.
Proof.
  intros Ha. pose proof PI_bounds as Hpi.
  assert (Hrad : np_radians (Fin a) = Fin (a * (PI / 180))).
  { unfold np_radians. apply fmul_pos.
    assert (1e-30 * (3 / 180) <= a * (PI / 180)) by nra.
    assert (a * (PI / 180) <= 90 * (4 / 180)) by nra.
    lra. }
  assert (Hs : 5e-33 <= sin (a * (PI / 180)) <= 1).
  { split; [| apply SIN_bound].
    apply Rle_trans with (Rmin (a / 200) (1 / 2));
      [| apply sin_angle_lower; lra].
    apply Rmin_glb; lra. }
  split; [assumption |]. split; [| assumption].
  rewrite Hrad. cbn [np_sin_value]. apply fround_pos. lra.
Qed.

(** A body too small for its volume to be a double: the report is one of
    zeros. *)
Lemma tiny_diameter_report now d v a lat lon w :
  0 <= d <= 1e-110 -> Rabs v <= 1e150 -> 1e-30 <= a <= 90 ->
  calculate_impact_effects now (Fin d) (Fin v) (Fin a) lat lon "Earth" w
    = Returned
        (earth_report now lat lon w (Fin a) (Fin 0) (Fin 0)
           (Float (Fin 0)) (Float (Fin 0)) (Float (Fin 0)) (VInt 0)).
Proof.
  intros Hd Hv Ha.
  assert (H2 : float_pow_int (Fin v) 2 = Returned (Fin (flush (v ^ 2)))).
  { rewrite float_pow_int_2. apply pow_result_flush.
    apply overflows_false. rewrite <- RPow_abs.
    assert (Rabs v ^ 2 <= 1e150 ^ 2)
      by (apply pow_incr; split; [apply Rabs_pos | assumption]).
    lra. }
  rewrite (zero_energy_report now (Fin d) (Fin v) (Fin a) lat lon w
             (Fin 0) (Fin (flush (v ^ 2))));
    [| now apply tiny_radius_cubed | assumption | apply zero_mass_energy].
  destruct (ordinary_sine a Ha) as (_ & -> & Hs).
  rewrite fdiv_zero_l by lra. rewrite fmul_zero_r.
  rewrite fdiv_zero_l by lra. reflexivity.
Qed.

(** C6, the refuted half: the long axis equals the short axis at 45
    degrees, where both are zero (a diameter of 1e-120 m, whose cube
    underflows). *)
Lemma long_equals_short_at_45_degrees :
  exists r,
    calculate_impact_effects "2025-10-04T09:30:00" (Fin 1e-120) (Fin 1)
        (Fin 45) (Fin 55.15) (Fin 61.40) "Earth" false
      = Returned r /\
    valid_request 1e-120 1 45 /\
    45 <> 90 /\
    field ["crater_details"; "short_axis_m_est"] r = Some (VFin 0) /\
    field ["crater_details"; "long_axis_m_est"] r = Some (VFin 0).
Proof.
  eexists. split.
  - apply tiny_diameter_report; [lra | rewrite Rabs_pos_eq; lra | lra].
  - split; [unfold valid_request; lra |]. split; [lra |].
    split; reflexivity.
Qed.

(** ** Monotonicity *)

(** C10, as the program has it.  For requests for Earth with a positive
    diameter and speed, the energy and the band never go down when a size
    goes up: of two calls that return, the second with a diameter and a
    speed at least those of the first, a finite energy of the second means
    a finite energy of the first that is at most it, and the rank of the
    band of the second (Local < City Level < Regional < Global) is at
    least the rank of the band of the first.  (The energy is not strictly
    increasing: it can be the same for two sizes.) *)
Theorem energy_and_band_monotone now a lat lon w d1 d2 v1 v2 r1 r2 :
  0 < d1 <= d2 -> 0 < v1 <= v2 ->
  calculate_impact_effects now (Fin d1) (Fin v1) (Fin a) lat lon "Earth" w
    = Returned r1 ->
  calculate_impact_effects now (Fin d2) (Fin v2) (Fin a) lat lon "Earth" w
    = Returned r2 ->
  exists (E1 E2 : float) (b1 b2 : string),
    field ["impact_energy_Mt"] r1 = Some (VNum (Float E1)) /\
    field ["impact_energy_Mt"] r2 = Some (VNum (Float E2)) /\
    field ["severity_band"] r1 = Some (VStr b1) /\
    field ["severity_band"] r2 = Some (VStr b2) /\
    (forall e2, E2 = Fin e2 -> exists e1, E1 = Fin e1 /\ 0 <= e1 <= e2) /\
    (band_index b1 <= band_index b2)%nat.
Proof.
  intros Hd Hv Hr1 Hr2.
  destruct (calculate_earth_inversion _ _ _ _ _ _ _ _ Hr1)
    as (c1 & s1 & root1 & sine1 & long1 & tripled1 & prec1 & J1 & E1
        & Hc1 & Hs1 & HJ1 & HE1 & _ & _ & _ & _ & _ & ->).
  destruct (calculate_earth_inversion _ _ _ _ _ _ _ _ Hr2)
    as (c2 & s2 & root2 & sine2 & long2 & tripled2 & prec2 & J2 & E2
        & Hc2 & Hs2 & HJ2 & HE2 & _ & _ & _ & _ & _ & ->).
  assert (Hn1 : fnonneg J1).
  { rewrite HJ1. apply kinetic_energy_nonneg.
    - apply (radius_cubed_nonneg d1); [lra | assumption].
    - now apply (speed_squared_nonneg v1). }
  assert (Hn2 : fnonneg J2).
  { rewrite HJ2. apply kinetic_energy_nonneg.
    - apply (radius_cubed_nonneg d2); [lra | assumption].
    - now apply (speed_squared_nonneg v2). }
  assert (HJ : fle_top J1 J2).
  { rewrite HJ1, HJ2. apply kinetic_energy_top.
    - apply (radius_cubed_nonneg d1); [lra | assumption].
    - now apply (speed_squared_nonneg v1).
    - apply (radius_cubed_top d1 d2); [lra | assumption | assumption].
    - apply (speed_squared_top v1 v2); [lra | assumption | assumption]. }
  assert (HE : fle_top E1 E2).
  { rewrite HE1, HE2. unfold JOULES_PER_MEGATON_TNT.
    apply fdiv_top; [lra | assumption | assumption]. }
  assert (HEn1 : fnonneg E1).
  { rewrite HE1. unfold JOULES_PER_MEGATON_TNT.
    apply fdiv_nonneg; [assumption | lra]. }
  assert (HEn2 : fnonneg E2).
  { rewrite HE2. unfold JOULES_PER_MEGATON_TNT.
    apply fdiv_nonneg; [assumption | lra]. }
  exists E1, E2, (band (get_severity_details E1)),
    (band (get_severity_details E2)).
  do 4 (split; [reflexivity |]). split.
  - intros e2 He2. rewrite He2 in HE.
    destruct E1 as [e1 | |]; [| contradiction | contradiction].
    exists e1. split; [reflexivity |]. cbn in HE, HEn1. lra.
  - now apply band_top.
Qed.

(** Diameters of 20 m and 200 m, both at 20 km/s. *)
Lemma energy_and_band_monotone_examples :
  exists r1 r2 (E1 E2 : float) (b1 b2 : string),
    calculate_impact_effects "2025-10-04T09:30:00" (Fin 20) (Fin 20000)
        (Fin 45) (Fin 55.15) (Fin 61.40) "Earth" false
      = Returned r1 /\
    calculate_impact_effects "2025-10-04T09:30:00" (Fin 200) (Fin 20000)
        (Fin 45) (Fin 55.15) (Fin 61.40) "Earth" false
      = Returned r2 /\
    field ["impact_energy_Mt"] r1 = Some (VNum (Float E1)) /\
    field ["impact_energy_Mt"] r2 = Some (VNum (Float E2)) /\
    field ["severity_band"] r1 = Some (VStr b1) /\
    field ["severity_band"] r2 = Some (VStr b2) /\
    (forall e2, E2 = Fin e2 -> exists e1, E1 = Fin e1 /\ 0 <= e1 <= e2) /\
    (band_index b1 <= band_index b2)%nat.
Proof.
  destruct (calculate_earth_positive "2025-10-04T09:30:00" 20 20000 45
              (Fin 55.15) (Fin 61.40) false) as (r1 & Hr1 & _);
    [unfold ordinary_sizes; lra |].
  destruct (calculate_earth_positive "2025-10-04T09:30:00" 200 20000 45
              (Fin 55.15) (Fin 61.40) false) as (r2 & Hr2 & _);
    [unfold ordinary_sizes; lra |].
  destruct (energy_and_band_monotone "2025-10-04T09:30:00" 45
              (Fin 55.15) (Fin 61.40) false 20 200 20000 20000 r1 r2)
    as (E1 & E2 & b1 & b2 & H); [lra | lra | exact Hr1 | exact Hr2 |].
  exists r1, r2, E1, E2, b1, b2.
  split; [exact Hr1 |]. split; [exact Hr2 | exact H].
Defined.

(** C10, the refuted half: diameters of 1e-120 m and 2e-120 m at the same
    speed give the same energy, zero. *)
Lemma energy_not_strictly_increasing :
  exists r1 r2,
    calculate_impact_effects "2025-10-04T09:30:00" (Fin 1e-120) (Fin 1)
        (Fin 45) (Fin 55.15) (Fin 61.40) "Earth" false
      = Returned r1 /\
    calculate_impact_effects "2025-10-04T09:30:00" (Fin 2e-120) (Fin 1)
        (Fin 45) (Fin 55.15) (Fin 61.40) "Earth" false
      = Returned r2 /\
    0 < 1e-120 < 2e-120 /\
    field ["impact_energy_Mt"] r1 = Some (VFin 0) /\
    field ["impact_energy_Mt"] r2 = Some (VFin 0).
Proof.
  do 2 eexists. split; [| split].
  - apply tiny_diameter_report; [lra | rewrite Rabs_pos_eq; lra | lra].
  - apply tiny_diameter_report; [lra | rewrite Rabs_pos_eq; lra | lra].
  - split; [lra |]. split; reflexivity.
Qed.

(** ** Ordinary requests in any environment *)

Lemma num_truediv_safe env x y :
  y <> 0 -> 1e-300 <= x / y <= 1e300 ->
  num_truediv env (Float (Fin x)) (Fin y) = Returned (Float (Fin (x / y))).
Proof.
  intros Hy H. cbn [num_truediv fdiv_flag fdiv].
  rewrite Reqb_false by assumption.
  rewrite overflows_false by (rewrite Rabs_pos_eq; lra).
  cbn [np_result]. rewrite fround_pos by assumption. reflexivity.
Qed.

Lemma np_mul_safe env k x :
  1e-300 <= k * x <= 1e300 ->
  np_mul env (Fin k) (Float (Fin x)) = Returned (Float (Fin (k * x))).
Proof.
  intros H. cbn [np_mul fmul_flag fmul].
  rewrite overflows_false by (rewrite Rabs_pos_eq; lra).
  cbn [np_result]. rewrite fround_pos by assumption. reflexivity.
Qed.

Lemma ordinary_crater_long d v a :
  ordinary_request d v a ->
  crater_short d v <= crater_long d v a /\
  9e-163 <= crater_long d v a <= 1e174.
Proof.
  intros [Hs Ha]. pose proof (ordinary_crater_short d v Hs) as Hshort.
  destruct (ordinary_sine a Ha) as (_ & _ & Hsin).
  unfold crater_long.
  set (s := crater_short d v) in *. set (g := sin (a * (PI / 180))) in *.
  unfold Rdiv.
  assert (Hi : 1 <= / g <= / 5e-33).
  { split.
    - rewrite <- Rinv_1. apply Rinv_le_contravar; lra.
    - apply Rinv_le_contravar; lra. }
  assert (Hc : / 5e-33 = 2e32) by lra.
  pose proof (mult_bounds s (/ g) 9e-163 9e140 1 2e32
                ltac:(lra) ltac:(lra) ltac:(lra) ltac:(lra)) as Hb.
  split; [| lra].
  apply Rle_trans with (s * 1); [lra |].
  apply Rmult_le_compat_l; lra.
Qed.

(** An ordinary request is answered in every environment, with the
    quantities of the formulas: no operation of NumPy reports anything. *)
Lemma calculate_earth_ordinary env now d v a lat lon w :
  ordinary_request d v a ->
  calculate_impact_effects_under env now (Fin d) (Fin v) (Fin a) lat lon
      "Earth" w
    = Returned
        (earth_report now lat lon w (Fin a) (Fin (energy_J d v))
           (Fin (energy_Mt d v)) (Float (Fin (crater_long d v a)))
           (Float (Fin (crater_short d v)))
           (Float (Fin (3 * crater_long d v a / 1000)))
           (if fle (Fin 0.1) (Fin (energy_Mt d v))
               && flt (Fin (energy_Mt d v)) (Fin 1000)
            then VFin (30 * Rpower (energy_Mt d v) (1 / 3)) else VInt 0)).
Proof.
  intros H. pose proof (ordinary_crater_long d v a H) as [_ Hlong].
  destruct H as [Hs Ha].
  destruct (ordinary_sine a Ha) as (Hrad & Hsine & Hsin).
  apply (calculate_earth_ordinary_sizes env now d v a lat lon w
           (Fin (sin (a * (PI / 180))))
           (Fin (crater_long d v a))
           (Float (Fin (3 * crater_long d v a)))
           (Fin (3 * crater_long d v a / 1000))).
  - assumption.
  - unfold np_sin. rewrite <- Hsine. rewrite Hrad. reflexivity.
  - apply num_truediv_safe; [lra |]. fold (crater_long d v a). lra.
  - apply np_mul_safe. lra.
  - apply num_truediv_safe; lra.
Qed.

(** ** The clock and the environment *)


(** A call that stops at the division by the sine. *)
Lemma calculate_earth_long_raises env now d v a lat lon w r3 v2 root sine e :
  float_pow_int (fdiv d (Fin 2)) 3 = Returned r3 ->
  float_pow_int v 2 = Returned v2 ->
  float_pow (fdiv (kinetic_energy_of r3 v2) JOULES_PER_MEGATON_TNT) (1 / 3)
    = Returned root ->
  np_sin env (np_radians a) = Returned sine ->
  num_truediv env (num_mul (Float (Fin 90)) root) sine = Raised e ->
  calculate_impact_effects_under env now d v a lat lon "Earth" w = Raised e.
Proof.
  intros H3 H2 Hroot Hsine Hlong.
  unfold calculate_impact_effects_under.
  cbn [String.eqb Ascii.eqb Bool.eqb negb].
  rewrite H3. cbn [bind]. rewrite H2. cbn [bind].
  fold (kinetic_energy_of r3 v2).
  rewrite Hroot. cbn [bind]. rewrite Hsine. cbn [bind].
  rewrite Hlong. reflexivity.
Qed.

Lemma zero_angle_sine : np_radians (Fin 0) = Fin 0 /\ np_sin_value (Fin 0) = Fin 0.
Proof.
  split.
  - unfold np_radians. apply fmul_zero_l.
  - cbn [np_sin_value]. rewrite sin_0. apply fround_zero.
Qed.





(** ** Malformed requests *)












(** ** Ordinary requests *)

(** X6. An ordinary request (diameter and speed between 1e-30 and 1e30,
    angle between 1e-30 and 90 degrees) is answered in every environment,
    and every size of its report is a finite, strictly positive number: the
    energies, the two axes of the crater (the long one at least the short
    one) and the precaution radius, each the value of its formula. *)
Theorem valid_sizes_positive env now d v a lat lon w :
  ordinary_request d v a ->
  exists r,
    calculate_impact_effects_under env now (Fin d) (Fin v) (Fin a) lat lon
        "Earth" w
      = Returned r /\
    field ["impact_energy_J"] r = Some (VFin (energy_J d v)) /\
    0 < energy_J d v /\
    field ["impact_energy_Mt"] r = Some (VFin (energy_Mt d v)) /\
    0 < energy_Mt d v /\
    field ["crater_details"; "short_axis_m_est"] r
      = Some (VFin (crater_short d v)) /\
    0 < crater_short d v /\
    field ["crater_details"; "long_axis_m_est"] r
      = Some (VFin (crater_long d v a)) /\
    crater_short d v <= crater_long d v a /\
    field ["precaution_radius_km_est"] r
      = Some (VFin (3 * crater_long d v a / 1000)) /\
    0 < 3 * crater_long d v a / 1000.
Proof.
  intros H. pose proof (ordinary_crater_long d v a H) as [Hle Hlong].
  pose proof (proj1 H) as Hs.
  pose proof (ordinary_energy_J d v Hs).
  pose proof (ordinary_energy_Mt d v Hs).
  pose proof (ordinary_crater_short d v Hs).
  eexists. split; [apply (calculate_earth_ordinary env); exact H |].
  repeat split; try reflexivity; lra.
Qed.

(** A grazing impact, at one degree, with every warning turned into an
    error. *)
Lemma valid_sizes_positive_grazing :
  exists r,
    calculate_impact_effects_under warnings_raise "2025-10-04T09:30:00"
        (Fin 20) (Fin 20000) (Fin 1) (Fin 55.15) (Fin 61.40) "Earth" false
      = Returned r /\
    field ["impact_energy_J"] r = Some (VFin (energy_J 20 20000)) /\
    0 < energy_J 20 20000 /\
    field ["impact_energy_Mt"] r = Some (VFin (energy_Mt 20 20000)) /\
    0 < energy_Mt 20 20000 /\
    field ["crater_details"; "short_axis_m_est"] r
      = Some (VFin (crater_short 20 20000)) /\
    0 < crater_short 20 20000 /\
    field ["crater_details"; "long_axis_m_est"] r
      = Some (VFin (crater_long 20 20000 1)) /\
    crater_short 20 20000 <= crater_long 20 20000 1 /\
    field ["precaution_radius_km_est"] r
      = Some (VFin (3 * crater_long 20 20000 1 / 1000)) /\
    0 < 3 * crater_long 20 20000 1 / 1000.
Proof.
  apply (valid_sizes_positive warnings_raise "2025-10-04T09:30:00" 20 20000 1
           (Fin 55.15) (Fin 61.40) false).
  unfold ordinary_request, ordinary_sizes. lra.
Defined.



(** ** Requests that are not valid *)

(** The square of a speed of at most 1e150 m/s in magnitude. *)
Lemma moderate_speed_squared v :
  Rabs v <= 1e150 ->
  float_pow_int (Fin v) 2 = Returned (Fin (flush (v ^ 2))).
Proof.
  intros Hv. rewrite float_pow_int_2. apply pow_result_flush.
  apply overflows_false. rewrite <- RPow_abs.
  assert (Rabs v ^ 2 <= 1e150 ^ 2)
    by (apply pow_incr; split; [apply Rabs_pos | assumption]).
  lra.
Qed.

(** X5. A NaN diameter is not rejected and is classified as the worst
    case: whatever the speed, the angle and the medium, a report that the
    call returns has a NaN energy, the band "Global Event" (black), both the
    airburst and the tsunami flag false, a damage radius of 0 and a NaN long
    axis. *)
Theorem nan_diameter_global_event now v a lat lon w r :
  calculate_impact_effects now NaN v a lat lon "Earth" w = Returned r ->
  field ["impact_energy_Mt"] r = Some (VNum (Float NaN)) /\
  field ["severity_band"] r = Some (VStr "Global Event") /\
  field ["severity_color"] r = Some (VStr "black") /\
  field ["shockwave_effects"; "is_airburst_risk"] r = Some (VBool false) /\
  field ["shockwave_effects"; "damage_radius_km_est"] r = Some (VInt 0) /\
  field ["tsunami_risk"] r = Some (VBool false) /\
  field ["crater_details"; "long_axis_m_est"] r = Some (VNum (Float NaN)).
Proof.
  intros Hr.
  destruct (calculate_earth_inversion _ _ _ _ _ _ _ _ Hr)
    as (r3 & v2 & root & sine & long & tripled & prec & J & E
        & H3 & _ & HJ & HE & Hroot & _ & Hlong & _ & _ & ->).
  change (float_pow_int (fdiv NaN (Fin 2)) 3) with (@Returned float NaN) in H3.
  injection H3 as <-.
  assert (HJn : J = NaN).
  { rewrite HJ. unfold kinetic_energy_of, ASTEROID_DENSITY_KGM3.
    rewrite sphere_factor. reflexivity. }
  assert (HEn : E = NaN) by (rewrite HE, HJn; reflexivity).
  subst E. rewrite HEn in *.
  assert (Hrt : root = Float NaN).
  { unfold float_pow in Hroot. rewrite (Reqb_false (1 / 3) 0) in Hroot by lra.
    now injection Hroot as <-. }
  subst root. cbn [num_mul fmul num_truediv] in Hlong.
  apply np_result_inv in Hlong. subst long.
  repeat split; try reflexivity.
  unfold field, earth_report.
  cbn [dict_path dict_get String.eqb Ascii.eqb Bool.eqb andb].
  destruct w; reflexivity.
Qed.

(** A NaN diameter at 20 km/s and 45 degrees, over water. *)
Lemma nan_diameter_global_event_example :
  exists r,
    calculate_impact_effects "2025-10-04T09:30:00" NaN (Fin 20000) (Fin 45)
        (Fin 55.15) (Fin 61.40) "Earth" true
      = Returned r /\
    field ["impact_energy_Mt"] r = Some (VNum (Float NaN)) /\
    field ["severity_band"] r = Some (VStr "Global Event") /\
    field ["severity_color"] r = Some (VStr "black") /\
    field ["shockwave_effects"; "is_airburst_risk"] r = Some (VBool false) /\
    field ["shockwave_effects"; "damage_radius_km_est"] r = Some (VInt 0) /\
    field ["tsunami_risk"] r = Some (VBool false) /\
    field ["crater_details"; "long_axis_m_est"] r = Some (VNum (Float NaN)).
Proof.
  assert (Hr : exists r,
             calculate_impact_effects "2025-10-04T09:30:00" NaN (Fin 20000)
                 (Fin 45) (Fin 55.15) (Fin 61.40) "Earth" true
               = Returned r).
  { eexists. unfold calculate_impact_effects.
    eapply calculate_earth_steps.
    - reflexivity.
    - apply moderate_speed_squared. rewrite Rabs_pos_eq; lra.
    - unfold kinetic_energy_of, ASTEROID_DENSITY_KGM3.
      rewrite sphere_factor. cbn [fmul fdiv].
      unfold float_pow. rewrite (Reqb_false (1 / 3) 0) by lra. reflexivity.
    - apply np_sin_default.
    - cbn [num_mul]. apply num_truediv_default.
    - apply np_mul_default.
    - apply num_truediv_default. }
  destruct Hr as (r & Hr). exists r. split; [exact Hr |].
  apply (nan_diameter_global_event "2025-10-04T09:30:00" (Fin 20000) (Fin 45)
           (Fin 55.15) (Fin 61.40) true r Hr).
Defined.

(** The kinetic energy of a body at rest. *)
Lemma zero_speed_energy c :
  0 <= c <= 1e294 -> kinetic_energy_of (Fin c) (Fin 0) = Fin 0.
Proof.
  intros Hc. pose proof PI_bounds as Hpi.
  unfold kinetic_energy_of, ASTEROID_DENSITY_KGM3. rewrite sphere_factor.
  cbn [fmul].
  assert (Hvol : 0 <= 4 / 3 * PI * c <= 16 / 3 * 1e294) by nra.
  rewrite (fround_flush (4 / 3 * PI * c))
    by (apply overflows_false; rewrite Rabs_pos_eq; lra).
  assert (Ho : 0 <= flush (4 / 3 * PI * c) <= 16 / 3 * 1e294).
  { split; [apply flush_nonneg; lra |].
    apply Rle_trans with (4 / 3 * PI * c); [apply flush_le; lra | lra]. }
  set (o := flush (4 / 3 * PI * c)) in *.
  rewrite (fround_flush (3500 * o))
    by (apply overflows_false; rewrite Rabs_pos_eq; lra).
  assert (Hm : 0 <= flush (3500 * o) <= 3500 * (16 / 3 * 1e294)).
  { split; [apply flush_nonneg; lra |].
    apply Rle_trans with (3500 * o); [apply flush_le; lra | lra]. }
  set (m := flush (3500 * o)) in *.
  rewrite (fround_flush (0.5 * m))
    by (apply overflows_false; rewrite Rabs_pos_eq; lra).
  apply fmul_zero_r.
Qed.

(** A zero diameter, or a zero speed with a diameter of at most 1e98 m:
    the kinetic energy of a call that gets past the two powers is zero. *)
Lemma zero_size_energy d v r3 v2 :
  d = 0 \/ (v = 0 /\ 0 <= d <= 1e98) ->
  float_pow_int (fdiv (Fin d) (Fin 2)) 3 = Returned r3 ->
  float_pow_int (Fin v) 2 = Returned v2 ->
  kinetic_energy_of r3 v2 = Fin 0.
Proof.
  intros Hzero H3 H2.
  destruct (speed_squared_inv v v2 H2) as [_ ->].
  destruct Hzero as [-> | [-> Hd]].
  - rewrite tiny_radius_cubed in H3 by lra. injection H3 as <-.
    apply zero_mass_energy.
  - destruct (radius_cubed_inv d r3 H3) as [(s & _ & Hs) | (_ & _ & ->)].
    + apply fround_Inf_inv in Hs. destruct Hs as [Hs _].
      rewrite overflows_false in Hs by (rewrite Rabs_pos_eq; lra).
      discriminate.
    + replace (0 ^ 2) with 0 by ring. rewrite flush_zero.
      apply zero_speed_energy.
      assert (Hr : 0 <= flush (d / 2) <= 1e98 / 2).
      { split; [apply flush_nonneg; lra |].
        apply Rle_trans with (d / 2); [apply flush_le; lra | lra]. }
      assert (Hc : 0 <= flush (d / 2) ^ 3 <= (1e98 / 2) ^ 3).
      { split; [apply pow_le; lra | apply pow_incr; assumption]. }
      split; [apply flush_nonneg; lra |].
      apply Rle_trans with (flush (d / 2) ^ 3); [apply flush_le; lra | lra].
Qed.

(** X13. A zero diameter, or a zero speed (with a diameter of at most
    1e98 m), is not rejected: with an angle between 1e-30 and 90 degrees, a
    report that the call returns is a "Local Event" whose energies, crater
    axes and precaution radius are all 0, with no airburst (radius 0) and no
    tsunami flag. *)
Theorem zero_size_report now d v a lat lon w r :
  d = 0 \/ (v = 0 /\ 0 <= d <= 1e98) ->
  1e-30 <= a <= 90 ->
  calculate_impact_effects now (Fin d) (Fin v) (Fin a) lat lon "Earth" w
    = Returned r ->
  field ["impact_energy_J"] r = Some (VFin 0) /\
  field ["impact_energy_Mt"] r = Some (VFin 0) /\
  field ["severity_band"] r = Some (VStr "Local Event") /\
  field ["crater_details"; "short_axis_m_est"] r = Some (VFin 0) /\
  field ["crater_details"; "long_axis_m_est"] r = Some (VFin 0) /\
  field ["precaution_radius_km_est"] r = Some (VFin 0) /\
  field ["shockwave_effects"; "is_airburst_risk"] r = Some (VBool false) /\
  field ["shockwave_effects"; "damage_radius_km_est"] r = Some (VInt 0) /\
  field ["tsunami_risk"] r = Some (VBool false).
Proof.
  intros Hzero Ha Hr.
  destruct (calculate_earth_inversion _ _ _ _ _ _ _ _ Hr)
    as (r3 & v2 & root & sine & long & tripled & prec & J & E
        & H3 & H2 & _).
  pose proof (zero_size_energy d v r3 v2 Hzero H3 H2) as HJ.
  rewrite (zero_energy_report now (Fin d) (Fin v) (Fin a) lat lon w r3 v2
             H3 H2 HJ) in Hr.
  apply Returned_inj in Hr. subst r.
  destruct (ordinary_sine a Ha) as (_ & -> & Hs).
  rewrite fdiv_zero_l by lra. rewrite fmul_zero_r.
  rewrite fdiv_zero_l by lra.
  repeat split; try reflexivity.
  - unfold field, earth_report.
    cbn [dict_path dict_get String.eqb Ascii.eqb Bool.eqb].
    rewrite severity_local by lra. reflexivity.
  - unfold field, earth_report.
    cbn [dict_path dict_get String.eqb Ascii.eqb Bool.eqb fle flt].
    rewrite Rleb_false by lra. reflexivity.
  - unfold field, earth_report.
    cbn [dict_path dict_get String.eqb Ascii.eqb Bool.eqb fgt flt].
    rewrite Rltb_false by lra. destruct w; reflexivity.
Qed.

(** A body of diameter zero over water. *)
Lemma zero_size_report_example :
  exists r,
    calculate_impact_effects "2025-10-04T09:30:00" (Fin 0) (Fin 20000)
        (Fin 45) (Fin 0) (Fin 0) "Earth" true
      = Returned r /\
    field ["impact_energy_J"] r = Some (VFin 0) /\
    field ["impact_energy_Mt"] r = Some (VFin 0) /\
    field ["severity_band"] r = Some (VStr "Local Event") /\
    field ["crater_details"; "short_axis_m_est"] r = Some (VFin 0) /\
    field ["crater_details"; "long_axis_m_est"] r = Some (VFin 0) /\
    field ["precaution_radius_km_est"] r = Some (VFin 0) /\
    field ["shockwave_effects"; "is_airburst_risk"] r = Some (VBool false) /\
    field ["shockwave_effects"; "damage_radius_km_est"] r = Some (VInt 0) /\
    field ["tsunami_risk"] r = Some (VBool false).
Proof.
  eexists. split.
  - apply tiny_diameter_report; [lra | rewrite Rabs_pos_eq; lra | lra].
  - apply (zero_size_report "2025-10-04T09:30:00" 0 20000 45 (Fin 0) (Fin 0)
             true); [left; reflexivity | lra |].
    apply tiny_diameter_report; [lra | rewrite Rabs_pos_eq; lra | lra].
Defined.

(** X14. A zero diameter, or a zero speed (with a diameter of at most
    1e98 m), together with an angle of 0 divides zero by zero: a report
    that the call returns has a short axis of 0 and a long axis and a
    precaution radius that are NaN. *)
Theorem zero_size_zero_angle_nan now d v lat lon w r :
  d = 0 \/ (v = 0 /\ 0 <= d <= 1e98) ->
  calculate_impact_effects now (Fin d) (Fin v) (Fin 0) lat lon "Earth" w
    = Returned r ->
  field ["crater_details"; "short_axis_m_est"] r = Some (VFin 0) /\
  field ["crater_details"; "long_axis_m_est"] r = Some (VNum (Float NaN)) /\
  field ["precaution_radius_km_est"] r = Some (VNum (Float NaN)).
Proof.
  intros Hzero Hr.
  destruct (calculate_earth_inversion _ _ _ _ _ _ _ _ Hr)
    as (r3 & v2 & root & sine & long & tripled & prec & J & E
        & H3 & H2 & _).
  pose proof (zero_size_energy d v r3 v2 Hzero H3 H2) as HJ.
  rewrite (zero_energy_report now (Fin d) (Fin v) (Fin 0) lat lon w r3 v2
             H3 H2 HJ) in Hr.
  apply Returned_inj in Hr. subst r.
  destruct zero_angle_sine as [-> ->].
  assert (Hnan : fdiv (Fin 0) (Fin 0) = NaN).
  { cbn [fdiv]. rewrite Reqb_true by reflexivity. reflexivity. }
  rewrite Hnan. repeat split; reflexivity.
Qed.

(** A body at rest, at an angle of zero. *)
Lemma zero_size_zero_angle_nan_example :
  exists r,
    calculate_impact_effects "2025-10-04T09:30:00" (Fin 20) (Fin 0)
        (Fin 0) (Fin 0) (Fin 0) "Earth" false
      = Returned r /\
    field ["crater_details"; "short_axis_m_est"] r = Some (VFin 0) /\
    field ["crater_details"; "long_axis_m_est"] r = Some (VNum (Float NaN)) /\
    field ["precaution_radius_km_est"] r = Some (VNum (Float NaN)).
Proof.
  assert (H3 : float_pow_int (fdiv (Fin 20) (Fin 2)) 3
               = Returned (Fin ((20 / 2) ^ 3))).
  { apply (ordinary_radius_cubed 20 1). unfold ordinary_sizes. lra. }
  assert (H2 : float_pow_int (Fin 0) 2 = Returned (Fin (flush (0 ^ 2)))).
  { apply moderate_speed_squared. rewrite Rabs_R0. lra. }
  assert (Hzero : 20 = 0 \/ (0 = 0 /\ 0 <= 20 <= 1e98))
    by (right; split; [reflexivity | lra]).
  pose proof (zero_energy_report "2025-10-04T09:30:00" (Fin 20) (Fin 0)
                (Fin 0) (Fin 0) (Fin 0) false _ _ H3 H2
                (zero_size_energy 20 0 _ _ Hzero H3 H2)) as Hr.
  eexists. split; [exact Hr |].
  apply (zero_size_zero_angle_nan "2025-10-04T09:30:00" 20 0 (Fin 0) (Fin 0)
           false _ Hzero Hr).
Defined.

(** ** Negative diameters *)

Lemma fmul_neg_r k x :
  1e-300 <= k * x <= 1e300 -> fmul (Fin k) (Fin (- x)) = Fin (- (k * x)).
Proof.
  intros H. cbn [fmul]. replace (k * - x) with (- (k * x)) by ring.
  apply fround_safe. rewrite Rabs_Ropp, Rabs_pos_eq; lra.
Qed.

Lemma fmul_neg_l x k :
  1e-300 <= x * k <= 1e300 -> fmul (Fin (- x)) (Fin k) = Fin (- (x * k)).
Proof.
  intros H. cbn [fmul]. replace (- x * k) with (- (x * k)) by ring.
  apply fround_safe. rewrite Rabs_Ropp, Rabs_pos_eq; lra.
Qed.

Lemma negative_radius_cubed p v :
  ordinary_sizes p v ->
  float_pow_int (fdiv (Fin (- p)) (Fin 2)) 3 = Returned (Fin (- (p / 2) ^ 3)).
Proof.
  intros [Hp Hv]. pose proof (ordinary_cube p Hp) as Hc.
  cbn [fdiv]. rewrite Reqb_false by lra.
  replace (- p / 2) with (- (p / 2)) by (unfold Rdiv; ring).
  rewrite fround_safe by (rewrite Rabs_Ropp, Rabs_pos_eq; lra).
  rewrite float_pow_int_3.
  replace ((- (p / 2)) ^ 3) with (- (p / 2) ^ 3) by ring.
  apply pow_result_safe. rewrite Rabs_Ropp, Rabs_pos_eq; lra.
Qed.

Lemma negative_kinetic_energy p v :
  ordinary_sizes p v ->
  kinetic_energy_of (Fin (- (p / 2) ^ 3)) (Fin (v ^ 2))
    = Fin (- energy_J p v).
Proof.
  intros H. pose proof (ordinary_energy_J p v H) as HJ.
  destruct H as [Hp Hv].
  pose proof PI_bounds as Hpi.
  pose proof (ordinary_cube p Hp) as Hc.
  pose proof (ordinary_square v Hv) as Hs.
  pose proof (mult_bounds (4 / 3 * PI) ((p / 2) ^ 3) 4 (16 / 3) 1e-91 1e90
                ltac:(lra) ltac:(lra) ltac:(lra) ltac:(lra)) as Hvol.
  unfold kinetic_energy_of, ASTEROID_DENSITY_KGM3. rewrite sphere_factor.
  rewrite (fmul_neg_r (4 / 3 * PI)) by lra.
  rewrite (fmul_neg_r 3500) by lra.
  rewrite (fmul_neg_r 0.5) by lra.
  rewrite fmul_neg_l by (rewrite energy_J_code; lra).
  now rewrite energy_J_code.
Qed.

Lemma negative_megatons p v :
  ordinary_sizes p v ->
  fdiv (Fin (- energy_J p v)) JOULES_PER_MEGATON_TNT
    = Fin (- energy_Mt p v).
Proof.
  intros H. pose proof (ordinary_energy_Mt p v H) as HE.
  unfold JOULES_PER_MEGATON_TNT. cbn [fdiv]. rewrite Reqb_false by lra.
  replace (- energy_J p v / 4.184e15) with (- energy_Mt p v)
    by (unfold energy_Mt, Rdiv; ring).
  apply fround_safe. rewrite Rabs_Ropp, Rabs_pos_eq; lra.
Qed.

(** The cube root of a negative energy, as Python computes it: a complex
    number. *)
Lemma negative_energy_root p v :
  ordinary_sizes p v ->
  float_pow (Fin (- energy_Mt p v)) (1 / 3)
    = Returned
        (Complex
           (fmul (Fin (Rpower (energy_Mt p v) (1 / 3)))
                 (Fin (cos (PI * (1 / 3)))))
           (fmul (Fin (Rpower (energy_Mt p v) (1 / 3)))
                 (Fin (sin (PI * (1 / 3)))))).
Proof.
  intros H. pose proof (ordinary_energy_Mt p v H) as HE.
  pose proof (ordinary_root p v H) as Hroot.
  unfold float_pow.
  rewrite (Reqb_false (1 / 3) 0) by lra.
  rewrite Reqb_false by lra. rewrite Rltb_true by lra.
  rewrite is_integer_third. rewrite Ropp_involutive.
  rewrite pow_result_safe by (rewrite Rabs_pos_eq; lra).
  reflexivity.
Qed.

(** Python's division of a complex number by a real scalar returns a
    complex number. *)
Lemma complex_truediv_inv env re im s q :
  num_truediv env (Complex re im) s = Returned q ->
  exists qr qi, q = Complex qr qi.
Proof.
  cbn [num_truediv]. destruct s as [y | t |].
  - destruct (fis_zero (Fin y)); [discriminate |].
    intros H. apply Returned_inj in H. subst q. eauto.
  - cbn [fis_zero]. intros H. apply Returned_inj in H. subst q. eauto.
  - intros H. apply Returned_inj in H. subst q. eauto.
Qed.

Lemma complex_truediv_nonzero env re im y :
  y <> 0 ->
  exists qr qi,
    num_truediv env (Complex re im) (Fin y) = Returned (Complex qr qi).
Proof.
  intros Hy. cbn [num_truediv fis_zero]. rewrite Reqb_false by assumption.
  eauto.
Qed.

(** A negative diameter of ordinary size, at an angle that is not minute:
    the call returns a report with a negative energy. *)
Lemma calculate_earth_negative now p v a lat lon w :
  ordinary_sizes p v -> 1e-30 <= a <= 90 ->
  exists r,
    calculate_impact_effects now (Fin (- p)) (Fin v) (Fin a) lat lon "Earth" w
      = Returned r /\
    field ["impact_energy_Mt"] r = Some (VFin (- energy_Mt p v)).
Proof.
  intros H Ha. destruct (ordinary_sine a Ha) as (_ & Hsine & Hsin).
  set (re := fmul (Fin (Rpower (energy_Mt p v) (1 / 3)))
                  (Fin (cos (PI * (1 / 3))))).
  set (im := fmul (Fin (Rpower (energy_Mt p v) (1 / 3)))
                  (Fin (sin (PI * (1 / 3))))).
  destruct (complex_truediv_nonzero default_environment
              (fsub (fmul (Fin 90) re) (fmul (Fin 0) im))
              (fadd (fmul (Fin 90) im) (fmul (Fin 0) re))
              (sin (a * (PI / 180))) ltac:(lra)) as (lr & li & Hlong).
  destruct (complex_truediv_nonzero default_environment
              (fsub (fmul (Fin 3) lr) (fmul (Fin 0) li))
              (fadd (fmul (Fin 3) li) (fmul (Fin 0) lr))
              1000 ltac:(lra)) as (pr & pi' & Hprec).
  eexists. split.
  - unfold calculate_impact_effects.
    apply (calculate_earth_steps default_environment now (Fin (- p)) (Fin v)
             (Fin a) lat lon w (Fin (- (p / 2) ^ 3)) (Fin (v ^ 2))
             (Complex re im) (Fin (sin (a * (PI / 180))))
             (Complex lr li)
             (num_mul (Float (Fin 3)) (Complex lr li))
             (Complex pr pi')).
    + apply (negative_radius_cubed p v H).
    + apply (ordinary_speed_squared p v H).
    + rewrite negative_kinetic_energy, negative_megatons by assumption.
      now apply negative_energy_root.
    + rewrite <- Hsine. apply np_sin_default.
    + exact Hlong.
    + reflexivity.
    + exact Hprec.
  - rewrite negative_kinetic_energy, negative_megatons by assumption.
    reflexivity.
Qed.

(** X15. A negative diameter is not rejected, and its report is not one of
    real numbers: whenever the energy of a report is a negative number, the
    band is "Local Event", no airburst and no tsunami is flagged, and the two
    axes of the crater and the precaution radius are complex numbers
    (Python's [**] on a negative base with the exponent 1/3). *)
Theorem negative_diameter_complex_crater now d v a lat lon w r e :
  calculate_impact_effects now d v a lat lon "Earth" w = Returned r ->
  field ["impact_energy_Mt"] r = Some (VFin e) ->
  e < 0 ->
  field ["severity_band"] r = Some (VStr "Local Event") /\
  field ["shockwave_effects"; "is_airburst_risk"] r = Some (VBool false) /\
  field ["tsunami_risk"] r = Some (VBool false) /\
  (exists sr si lr li pr pi',
     field ["crater_details"; "short_axis_m_est"] r
       = Some (VNum (Complex sr si)) /\
     field ["crater_details"; "long_axis_m_est"] r
       = Some (VNum (Complex lr li)) /\
     field ["precaution_radius_km_est"] r = Some (VNum (Complex pr pi'))).
Proof.
  intros Hr HE He.
  destruct (calculate_earth_inversion _ _ _ _ _ _ _ _ Hr)
    as (r3 & v2 & root & sine & long & tripled & prec & J & E
        & _ & _ & _ & _ & Hroot & _ & Hlong & Htripled & Hprec & ->).
  assert (HEe : E = Fin e).
  { unfold field, earth_report in HE.
    cbn [dict_path dict_get String.eqb Ascii.eqb Bool.eqb] in HE.
    unfold VFin in HE. congruence. }
  subst E.
  assert (Hrt : exists re im, root = Complex re im).
  { unfold float_pow in Hroot.
    rewrite (Reqb_false (1 / 3) 0) in Hroot by lra.
    rewrite Reqb_false in Hroot by lra.
    rewrite Rltb_true in Hroot by lra.
    rewrite is_integer_third in Hroot.
    destruct (pow_result (Rpower (- e) (1 / 3))) as [len |]; [| discriminate].
    cbn [bind] in Hroot. apply Returned_inj in Hroot. subst root. eauto. }
  destruct Hrt as (re & im & ->).
  cbn [num_mul to_complex] in Hlong.
  destruct (complex_truediv_inv _ _ _ _ _ Hlong) as (lr & li & ->).
  cbn [np_mul num_mul to_complex] in Htripled.
  apply Returned_inj in Htripled. subst tripled.
  destruct (complex_truediv_inv _ _ _ _ _ Hprec) as (pr & pi' & ->).
  split; [| split; [| split]].
  - unfold field, earth_report.
    cbn [dict_path dict_get String.eqb Ascii.eqb Bool.eqb].
    rewrite severity_local by lra. reflexivity.
  - unfold field, earth_report.
    cbn [dict_path dict_get String.eqb Ascii.eqb Bool.eqb fle flt].
    rewrite Rleb_false by lra. reflexivity.
  - unfold field, earth_report.
    cbn [dict_path dict_get String.eqb Ascii.eqb Bool.eqb fgt flt].
    rewrite Rltb_false by lra. destruct w; reflexivity.
  - do 6 eexists. repeat split; reflexivity.
Qed.

(** A diameter of -20 m at 20 km/s and 45 degrees. *)
Lemma negative_diameter_complex_crater_example :
  exists r,
    calculate_impact_effects "2025-10-04T09:30:00" (Fin (- 20)) (Fin 20000)
        (Fin 45) (Fin 55.15) (Fin 61.40) "Earth" true
      = Returned r /\
    field ["impact_energy_Mt"] r = Some (VFin (- energy_Mt 20 20000)) /\
    - energy_Mt 20 20000 < 0 /\
    field ["severity_band"] r = Some (VStr "Local Event") /\
    field ["shockwave_effects"; "is_airburst_risk"] r = Some (VBool false) /\
    field ["tsunami_risk"] r = Some (VBool false) /\
    (exists sr si lr li pr pi',
       field ["crater_details"; "short_axis_m_est"] r
         = Some (VNum (Complex sr si)) /\
       field ["crater_details"; "long_axis_m_est"] r
         = Some (VNum (Complex lr li)) /\
       field ["precaution_radius_km_est"] r = Some (VNum (Complex pr pi'))).
Proof.
  assert (H : ordinary_sizes 20 20000) by (unfold ordinary_sizes; lra).
  destruct (calculate_earth_negative "2025-10-04T09:30:00" 20 20000 45
              (Fin 55.15) (Fin 61.40) true H ltac:(lra)) as (r & Hr & HE).
  assert (He : - energy_Mt 20 20000 < 0).
  { pose proof (ordinary_energy_Mt 20 20000 H). lra. }
  exists r. split; [exact Hr |]. split; [exact HE |]. split; [exact He |].
  apply (negative_diameter_complex_crater "2025-10-04T09:30:00"
           (Fin (- 20)) (Fin 20000) (Fin 45) (Fin 55.15) (Fin 61.40) true r
           (- energy_Mt 20 20000) Hr HE He).
Defined.

(** X16. With a negative diameter of ordinary size (between -1e30 and
    -1e-30), a speed between 1e-30 and 1e30 and an angle of 0, the call
    returns no report in any environment: the complex crater diameter is
    divided by the zero sine, and Python's complex division raises
    ZeroDivisionError. *)
Theorem negative_diameter_zero_angle_raises env now d v lat lon w :
  ordinary_sizes (- d) v ->
  calculate_impact_effects_under env now (Fin d) (Fin v) (Fin 0) lat lon
      "Earth" w
    = Raised ZeroDivisionError.
Proof.
  intros H. destruct zero_angle_sine as [Hrad Hsin].
  rewrite <- (Ropp_involutive d).
  apply (calculate_earth_long_raises env now (Fin (- - d)) (Fin v) (Fin 0)
           lat lon w (Fin (- (- d / 2) ^ 3)) (Fin (v ^ 2))
           (Complex
              (fmul (Fin (Rpower (energy_Mt (- d) v) (1 / 3)))
                    (Fin (cos (PI * (1 / 3)))))
              (fmul (Fin (Rpower (energy_Mt (- d) v) (1 / 3)))
                    (Fin (sin (PI * (1 / 3))))))
           (Fin 0)).
  - apply (negative_radius_cubed (- d) v H).
  - apply (ordinary_speed_squared (- d) v H).
  - rewrite negative_kinetic_energy, negative_megatons by assumption.
    now apply negative_energy_root.
  - unfold np_sin. rewrite Hrad, Hsin. reflexivity.
  - cbn [num_mul to_complex num_truediv fis_zero].
    rewrite Reqb_true by reflexivity. reflexivity.
Qed.

(** A diameter of -20 m at an angle of zero, with division errors
    ignored by NumPy. *)
Lemma negative_diameter_zero_angle_raises_example :
  calculate_impact_effects_under
      {| errstate := {| divide := Ignore; over := Ignore; invalid := Ignore |};
         warnings_as_errors := false |}
      "2025-10-04T09:30:00" (Fin (- 20)) (Fin 20000) (Fin 0)
      (Fin 55.15) (Fin 61.40) "Earth" false
    = Raised ZeroDivisionError.
Proof.
  apply (negative_diameter_zero_angle_raises
           {| errstate := {| divide := Ignore; over := Ignore;
                             invalid := Ignore |};
              warnings_as_errors := false |}
           "2025-10-04T09:30:00" (- 20) 20000 (Fin 55.15) (Fin 61.40) false).
  unfold ordinary_sizes. lra.
Defined.

(** ** Sizes out of range *)

(** X18. An infinite diameter is not rejected: with a speed between 1e-100
    and 1e100 in magnitude and an angle between 1e-30 and 90 degrees, the
    call returns, in every environment, a report whose energy is +Infinity,
    whose band is "Global Event", whose airburst flag is false (radius 0),
    whose tsunami flag is [impact_in_water], and whose crater axes and
    precaution radius are +Infinity. *)
Theorem infinite_diameter_report env now v a lat lon w :
  1e-100 <= Rabs v <= 1e100 -> 1e-30 <= a <= 90 ->
  exists r,
    calculate_impact_effects_under env now (Inf false) (Fin v) (Fin a)
        lat lon "Earth" w
      = Returned r /\
    field ["impact_energy_Mt"] r = Some (VNum (Float (Inf false))) /\
    field ["severity_band"] r = Some (VStr "Global Event") /\
    field ["shockwave_effects"; "is_airburst_risk"] r = Some (VBool false) /\
    field ["shockwave_effects"; "damage_radius_km_est"] r = Some (VInt 0) /\
    field ["tsunami_risk"] r = Some (VBool w) /\
    field ["crater_details"; "short_axis_m_est"] r
      = Some (VNum (Float (Inf false))) /\
    field ["crater_details"; "long_axis_m_est"] r
      = Some (VNum (Float (Inf false))) /\
    field ["precaution_radius_km_est"] r = Some (VNum (Float (Inf false))).
Proof.
  intros Hv Ha'. pose proof PI_bounds as Hpi.
  assert (Ha : 0 < a <= 90) by lra.
  destruct (valid_sine a Ha) as (sigma & Hsig & Hs & _).
  destruct (radians_range a Ha) as [Hlo Hhi].
  assert (Hv2 : 1e-200 <= v ^ 2 <= 1e200).
  { rewrite <- (Rabs_pos_eq (v ^ 2)) by (simpl; nra).
    rewrite <- RPow_abs.
    assert (1e-100 ^ 2 <= Rabs v ^ 2) by (apply pow_incr; lra).
    assert (Rabs v ^ 2 <= 1e100 ^ 2)
      by (apply pow_incr; split; [apply Rabs_pos | lra]).
    lra. }
  assert (HJ : kinetic_energy_of (Inf false) (Fin (v ^ 2)) = Inf false).
  { unfold kinetic_energy_of, ASTEROID_DENSITY_KGM3. rewrite sphere_factor.
    cbn [fmul].
    rewrite (Reqb_false (4 / 3 * PI)), (Rltb_false (4 / 3 * PI)) by lra.
    cbn [xorb].
    rewrite (Reqb_false 3500), (Rltb_false 3500) by lra. cbn [xorb].
    rewrite (Reqb_false 0.5), (Rltb_false 0.5) by lra. cbn [xorb fmul].
    rewrite Reqb_false, Rltb_false by lra. reflexivity. }
  assert (HE : fdiv (Inf false) JOULES_PER_MEGATON_TNT = Inf false).
  { unfold JOULES_PER_MEGATON_TNT. cbn [fdiv].
    rewrite Rltb_false by lra. reflexivity. }
  assert (H90 : fmul (Fin 90) (Inf false) = Inf false).
  { cbn [fmul]. rewrite Reqb_false, Rltb_false by lra. reflexivity. }
  assert (Hrad : exists rho, np_radians (Fin a) = Fin rho).
  { unfold np_radians. cbn [fmul]. rewrite fround_flush; [eauto |].
    apply overflows_false. rewrite Rabs_pos_eq; lra. }
  destruct Hrad as (rho & Hrad).
  eexists. split.
  - apply (calculate_earth_steps env now (Inf false) (Fin v) (Fin a) lat lon w
             (Inf false) (Fin (v ^ 2)) (Float (Inf false)) (Fin sigma)
             (Float (Inf false)) (Float (Inf false)) (Float (Inf false))).
    + cbn [fdiv]. rewrite Rltb_false by lra. reflexivity.
    + rewrite float_pow_int_2. apply pow_result_safe.
      rewrite Rabs_pos_eq; lra.
    + rewrite HJ, HE. unfold float_pow.
      rewrite (Reqb_false (1 / 3) 0) by lra. rewrite Rltb_true by lra.
      rewrite is_odd_integer_third. reflexivity.
    + unfold np_sin. rewrite <- Hsig. rewrite Hrad. reflexivity.
    + cbn [num_mul]. rewrite H90. cbn [num_truediv fdiv_flag fdiv np_result].
      rewrite Rltb_false by lra. reflexivity.
    + cbn [np_mul fmul_flag fmul].
      rewrite Reqb_false, Rltb_false by lra. reflexivity.
    + cbn [num_truediv fdiv_flag fdiv np_result].
      rewrite Rltb_false by lra. reflexivity.
  - rewrite HJ, HE. cbn [num_mul]. rewrite H90.
    repeat split; try reflexivity.
    unfold field, earth_report.
    cbn [dict_path dict_get String.eqb Ascii.eqb Bool.eqb fgt flt negb].
    now rewrite andb_true_r.
Qed.

(** An infinite diameter over water, with NumPy raising on every error. *)
Lemma infinite_diameter_report_example :
  exists r,
    calculate_impact_effects_under
        {| errstate := {| divide := Raise; over := Raise; invalid := Raise |};
           warnings_as_errors := true |}
        "2025-10-04T09:30:00" (Inf false) (Fin 20000) (Fin 45)
        (Fin 55.15) (Fin 61.40) "Earth" true
      = Returned r /\
    field ["impact_energy_Mt"] r = Some (VNum (Float (Inf false))) /\
    field ["severity_band"] r = Some (VStr "Global Event") /\
    field ["shockwave_effects"; "is_airburst_risk"] r = Some (VBool false) /\
    field ["shockwave_effects"; "damage_radius_km_est"] r = Some (VInt 0) /\
    field ["tsunami_risk"] r = Some (VBool true) /\
    field ["crater_details"; "short_axis_m_est"] r
      = Some (VNum (Float (Inf false))) /\
    field ["crater_details"; "long_axis_m_est"] r
      = Some (VNum (Float (Inf false))) /\
    field ["precaution_radius_km_est"] r = Some (VNum (Float (Inf false))).
Proof.
  apply (infinite_diameter_report
           {| errstate := {| divide := Raise; over := Raise;
                             invalid := Raise |};
              warnings_as_errors := true |}
           "2025-10-04T09:30:00" 20000 45 (Fin 55.15) (Fin 61.40) true).
  - rewrite Rabs_pos_eq; lra.
  - lra.
Defined.

Lemma float_max_range : 1e308 < float_max_bound < 1e309.
Proof. unfold float_max_bound, float_max_Z. lra. Qed.

Lemma flush_abs_le x : Rabs (flush x) <= Rabs x.
Proof.
  destruct (flush_cases x) as [-> | ->]; [lra |].
  rewrite Rabs_R0. apply Rabs_pos.
Qed.



(** X21. A speed whose square is out of the range of a double makes the
    call raise OverflowError: for a diameter of magnitude at most 1e100 m
    and a finite speed of magnitude 1e155 m/s or more, whatever the angle
    and the environment, no report is returned. *)
Theorem huge_speed_raises_overflow env now d v a lat lon w :
  Rabs d <= 1e100 -> 1e155 <= Rabs v ->
  calculate_impact_effects_under env now (Fin d) (Fin v) a lat lon "Earth" w
    = Raised OverflowError.
Proof.
  intros Hd Hv. pose proof float_max_range as Hmax.
  unfold calculate_impact_effects_under.
  cbn [String.eqb Ascii.eqb Bool.eqb negb fdiv].
  rewrite Reqb_false by lra.
  assert (Hhalf : Rabs (d / 2) <= 1e100 / 2).
  { unfold Rdiv. rewrite Rabs_mult, (Rabs_pos_eq (/ 2)) by lra. lra. }
  rewrite fround_flush by (apply overflows_false; lra).
  rewrite float_pow_int_3.
  assert (Hr : 0 <= Rabs (flush (d / 2)) <= 1e100 / 2).
  { split; [apply Rabs_pos |].
    apply Rle_trans with (Rabs (d / 2)); [apply flush_abs_le | assumption]. }
  rewrite pow_result_flush.
  - cbn [bind]. rewrite float_pow_int_2, pow_result_overflow; [reflexivity |].
    unfold overflows. apply Rleb_true. rewrite <- RPow_abs.
    assert (1e155 ^ 2 <= Rabs v ^ 2) by (apply pow_incr; lra).
    lra.
  - apply overflows_false. rewrite <- RPow_abs.
    assert (Rabs (flush (d / 2)) ^ 3 <= (1e100 / 2) ^ 3)
      by (apply pow_incr; assumption).
    lra.
Qed.

(** A 20 m body at 1e200 m/s. *)
Lemma huge_speed_raises_overflow_example :
  calculate_impact_effects_under default_environment "2025-10-04T09:30:00"
      (Fin 20) (Fin 1e200) (Fin 45) (Fin 55.15) (Fin 61.40) "Earth" false
    = Raised OverflowError.
Proof.
  apply (huge_speed_raises_overflow default_environment
           "2025-10-04T09:30:00" 20 1e200 (Fin 45)
           (Fin 55.15) (Fin 61.40) false).
  - rewrite Rabs_pos_eq; lra.
  - rewrite Rabs_pos_eq; lra.
Defined.
